(** * The simple MailGoat agent (examples/simple-agent/agent.py)

    A shallow embedding of the polling agent: the command gateway
    [run_mailgoat], the state store [load_state] / [save_state], the reply
    policy [build_reply_subject] / [build_reply_body], the processing cycle
    [process_messages] and the poll loop [main].

    Conventions of the model.
    - A Python [str] is a [string] whose characters are the code points
      0..255 (the Latin-1 range); [strip] and [lower] are Python's on that
      range.
    - A decoded JSON document is a [json] value; JSON numbers are integers.
    - The interpreter's library ([subprocess.run], [json.loads],
      [json.dumps]) is a [Platform]: the development holds for every
      platform, and [json_roundtrip] states the one contract of the JSON codec
      that the state store relies on.
    - Effects are explicit: a [World] holds what the file system has at
      the state path, the state of the external [mailgoat] executable and
      the trace of what the agent did.
    - The file system can fail where the agent reads: the existence check
      and the read of the state file raise as [pathlib] does. The write of
      the state file is taken to succeed.
    - [time.sleep] raises as the interpreter does, for a negative number of
      seconds and for one that is out of its range. *)

From Stdlib Require Import ZArith Ascii String List Lia.
From Stdlib Require Import DecimalString DecimalPos DecimalZ.
From stdpp Require Import base decidable option list sorting gmap strings.

Set Warnings "-register-all,-clear-no-such-hyp".
Local Open Scope string_scope.
Local Open Scope Z_scope.

(** ** Python strings *)

Module PyStr.

Definition code (c : ascii) : nat := nat_of_ascii c.

Definition newline : ascii := ascii_of_nat 10.
Definition dquote : ascii := ascii_of_nat 34.
Definition squote : ascii := ascii_of_nat 39.
Definition backslash : ascii := ascii_of_nat 92.

(** [str.isspace] of one character: the white space of Latin-1. *)
Definition isspace (c : ascii) : bool :=
  let n := code c in
  ((9 <=? n) && (n <=? 13) || (28 <=? n) && (n <=? 32)
   || (n =? 133) || (n =? 160))%nat.

Fixpoint lstrip (s : string) : string :=
  match s with
  | String c r => if isspace c then lstrip r else s
  | EmptyString => EmptyString
  end.

Fixpoint rstrip (s : string) : string :=
  match s with
  | String c r =>
      match rstrip r with
      | EmptyString => if isspace c then EmptyString else String c EmptyString
      | r' => String c r'
      end
  | EmptyString => EmptyString
  end.

(** [s.strip()] *)
Definition strip (s : string) : string := rstrip (lstrip s).

(** [str.lower] of one character: A-Z, and the upper-case letters of
    Latin-1 (0xC0-0xDE without the multiplication sign 0xD7). *)
Definition lower_char (c : ascii) : ascii :=
  let n := code c in
  if ((65 <=? n) && (n <=? 90)
      || (192 <=? n) && (n <=? 222) && negb (n =? 215))%nat
  then ascii_of_nat (n + 32) else c.

Fixpoint lower (s : string) : string :=
  match s with
  | String c r => String (lower_char c) (lower r)
  | EmptyString => EmptyString
  end.

(** [s.startswith(p)] *)
Definition startswith (s p : string) : bool := String.prefix p s.

(** Truth value of a string: [bool(s)]. *)
Definition truthy (s : string) : bool :=
  match s with EmptyString => false | _ => true end.

(** [a or b] on strings. *)
Definition or_else (a b : string) : string := if truthy a then a else b.

(** [sep.join(l)] *)
Fixpoint join (sep : string) (l : list string) : string :=
  match l with
  | [] => EmptyString
  | [x] => x
  | x :: r => x +:+ sep +:+ join sep r
  end.

Fixpoint contains (c : ascii) (s : string) : bool :=
  match s with
  | String d r => if Ascii.eqb c d then true else contains c r
  | EmptyString => false
  end.

(** The characters of a string, as one-character strings
    (iteration over a [str]). *)
Fixpoint chars (s : string) : list string :=
  match s with
  | String c r => String c EmptyString :: chars r
  | EmptyString => []
  end.

Definition hex_digit (n : nat) : ascii :=
  match n with
  | 0 => "0" | 1 => "1" | 2 => "2" | 3 => "3" | 4 => "4" | 5 => "5"
  | 6 => "6" | 7 => "7" | 8 => "8" | 9 => "9" | 10 => "a" | 11 => "b"
  | 12 => "c" | 13 => "d" | 14 => "e" | _ => "f"
  end%char%nat.

(** [str.isprintable] of one character. *)
Definition isprintable (c : ascii) : bool :=
  let n := code c in
  ((32 <=? n) && (n <=? 126) || (161 <=? n) && negb (n =? 173))%nat.

(** One character of [repr(s)], inside the quote [q]. *)
Definition repr_char (q c : ascii) : string :=
  let n := code c in
  if Ascii.eqb c q || Ascii.eqb c backslash
  then String backslash (String c EmptyString)
  else if (n =? 9)%nat then "\t"
  else if (n =? 10)%nat then "\n"
  else if (n =? 13)%nat then "\r"
  else if isprintable c then String c EmptyString
  else String backslash (String "x"%char
         (String (hex_digit (n / 16))
            (String (hex_digit (n mod 16)) EmptyString))).

Fixpoint repr_body (q : ascii) (s : string) : string :=
  match s with
  | String c r => repr_char q c +:+ repr_body q r
  | EmptyString => EmptyString
  end.

(** [repr(s)] of a string: single quotes, unless the string has a single
    quote and no double quote. *)
Definition repr (s : string) : string :=
  let q := if contains squote s && negb (contains dquote s)
           then dquote else squote in
  String q (repr_body q s +:+ String q EmptyString).

(** [str(n)] of an integer. *)
Definition of_Z (n : Z) : string := NilZero.string_of_int (Z.to_int n).

(** [s.split(sep)] for a separator of one character. *)
Fixpoint split (sep : ascii) (s : string) : list string :=
  match s with
  | EmptyString => [EmptyString]
  | String c r =>
      if Ascii.eqb c sep then EmptyString :: split sep r
      else match split sep r with
           | x :: xs => String c x :: xs
           | [] => [String c EmptyString]
           end
  end.

End PyStr.

(** ** Decoded JSON documents *)

Inductive json : Type :=
| JNull
| JBool (b : bool)
| JInt (n : Z)
| JStr (s : string)
| JArr (items : list json)
| JObj (members : list (string * json)).

(** [repr(v)] of a decoded document. *)
Fixpoint py_repr (v : json) : string :=
  match v with
  | JNull => "None"
  | JBool true => "True"
  | JBool false => "False"
  | JInt n => PyStr.of_Z n
  | JStr s => PyStr.repr s
  | JArr items => "[" +:+ PyStr.join ", " (map py_repr items) +:+ "]"
  | JObj members =>
      "{" +:+ PyStr.join ", "
                (map (fun kv => match kv with
                                | (k, x) => PyStr.repr k +:+ ": " +:+ py_repr x
                                end) members) +:+ "}"
  end.

(** [str(v)] *)
Definition py_str (v : json) : string :=
  match v with
  | JStr s => s
  | _ => py_repr v
  end.

(** The members of a [JObj] are the items of a dict in insertion order; the
    keys of a dict are distinct. *)

(** [d[key] = x]: a key that is there keeps its place. *)
Fixpoint dict_set (key : string) (x : json) (members : list (string * json))
  : list (string * json) :=
  match members with
  | [] => [(key, x)]
  | (k, y) :: r =>
      if String.eqb k key then (key, x) :: r else (k, y) :: dict_set key x r
  end.

(** The dict of a sequence of pairs, as the JSON decoder builds it. *)
Definition dict_of_pairs (pairs : list (string * json)) : list (string * json) :=
  fold_left (fun d kv => dict_set (fst kv) (snd kv) d) pairs [].

(** [d.get(key)] on the members of a dict. *)
Fixpoint dict_lookup (key : string) (members : list (string * json)) : option json :=
  match members with
  | [] => None
  | (k, x) :: r => if String.eqb k key then Some x else dict_lookup key r
  end.

(** [d.get(key, default)] *)
Definition dict_get (key : string) (default : json) (members : list (string * json)) : json :=
  match dict_lookup key members with
  | Some x => x
  | None => default
  end.

(** ** Hashable values and Python sets *)

(** What a [set] built from a decoded document can hold: [None], booleans,
    integers and strings. *)
Inductive atom : Type :=
| ANone
| ABool (b : bool)
| AInt (n : Z)
| AStr (s : string).

#[global] Instance atom_eq_dec : EqDecision atom.
Proof. solve_decision. Defined.

Definition atom_encode (a : atom) : unit + bool + Z + string :=
  match a with
  | ANone => inl (inl (inl tt))
  | ABool b => inl (inl (inr b))
  | AInt n => inl (inr n)
  | AStr s => inr s
  end.

Definition atom_decode (x : unit + bool + Z + string) : atom :=
  match x with
  | inl (inl (inl _)) => ANone
  | inl (inl (inr b)) => ABool b
  | inl (inr n) => AInt n
  | inr s => AStr s
  end.

#[global] Instance atom_countable : Countable atom.
Proof.
  refine (inj_countable' atom_encode atom_decode _).
  intros []; reflexivity.
Defined.

(** A Python [set] of hashable values. *)
Abbreviation pyset := (gset atom).

(** The number a boolean or an integer stands for ([True == 1]). *)
Definition num_value (a : atom) : option Z :=
  match a with
  | ABool b => Some (if b then 1 else 0)
  | AInt n => Some n
  | _ => None
  end.

(** [a == b] *)
Definition py_eq (a b : atom) : bool :=
  match num_value a, num_value b with
  | Some x, Some y => (x =? y)%Z
  | None, None => bool_decide (a = b)
  | _, _ => false
  end.

(** [a in s] *)
Definition py_in (a : atom) (s : pyset) : bool :=
  existsb (py_eq a) (elements s).

(** [s.add(a)]: an element equal to [a] that is already there stays. *)
Definition py_add (a : atom) (s : pyset) : pyset :=
  if py_in a s then s else {[ a ]} ∪ s.

(** [set(l)] of a list of hashable values. *)
Definition py_set (l : list atom) : pyset :=
  fold_left (fun s a => py_add a s) l ∅.

(** The hashable value of a decoded document; lists and dicts have none. *)
Definition hashable (v : json) : option atom :=
  match v with
  | JNull => Some ANone
  | JBool b => Some (ABool b)
  | JInt n => Some (AInt n)
  | JStr s => Some (AStr s)
  | JArr _ | JObj _ => None
  end.

Definition json_of_atom (a : atom) : json :=
  match a with
  | ANone => JNull
  | ABool b => JBool b
  | AInt n => JInt n
  | AStr s => JStr s
  end.

(** The order [sorted] compares with: strings by code points, numbers by
    value. [comparable] says that [<] is defined between two values. *)
Definition comparable (a b : atom) : bool :=
  match a, b with
  | AStr _, AStr _ => true
  | (ABool _ | AInt _), (ABool _ | AInt _) => true
  | _, _ => false
  end.

Definition atom_rank (a : atom) : Z :=
  match a with ANone => 0 | ABool _ | AInt _ => 1 | AStr _ => 2 end.

Definition atom_leb (a b : atom) : bool :=
  match a, b with
  | AStr x, AStr y => String.leb x y
  | _, _ =>
      match num_value a, num_value b with
      | Some x, Some y => (x <=? y)%Z
      | _, _ => (atom_rank a <=? atom_rank b)%Z
      end
  end.

Definition atom_le (a b : atom) : Prop := atom_leb a b = true.

#[global] Instance atom_le_dec : RelDecision atom_le.
Proof. intros a b. unfold atom_le. apply _. Defined.

(** Every two members can be compared. *)
Definition all_comparable (l : list atom) : bool :=
  forallb (fun a => forallb (comparable a) l) l.

(** ** Exceptions and the state-and-exception monad *)

(** The exceptions of the agent, all of them subclasses of [Exception];
    [OSError] is what running a command and what the file system can
    raise, [OverflowError] what [time.sleep] raises for a number of seconds
    that is out of its range. *)
Inductive exn : Type :=
| RuntimeError (msg : string)
| JSONDecodeError
| AttributeError
| TypeError
| ValueError
| OverflowError
| OSError (msg : string).

Inductive result (A : Type) : Type :=
| Ok (a : A)
| Raise (e : exn).
Arguments Ok {A} a.
Arguments Raise {A} e.

Definition M (S A : Type) : Type := S -> result A * S.

Definition ret {S A} (a : A) : M S A := fun w => (Ok a, w).
Definition raise {S A} (e : exn) : M S A := fun w => (Raise e, w).
Definition bind {S A B} (m : M S A) (k : A -> M S B) : M S B :=
  fun w => match m w with
           | (Ok a, w') => k a w'
           | (Raise e, w') => (Raise e, w')
           end.

(** [try: m except Exception: h] *)
Definition try_except {S A} (m : M S A) (h : exn -> M S A) : M S A :=
  fun w => match m w with
           | (Ok a, w') => (Ok a, w')
           | (Raise e, w') => h e w'
           end.

Declare Scope agent_scope.
Delimit Scope agent_scope with agent.
Notation "x <- m ;; k" := (bind m (fun x => k))
  (at level 100, m at next level, right associativity) : agent_scope.
Notation "m ;;; k" := (bind m (fun _ => k))
  (at level 100, right associativity) : agent_scope.
Local Open Scope agent_scope.

(** [sorted(s)]: a [TypeError] when two members cannot be compared (a sort
    of two or more members compares members of different kinds when there
    are any). *)
Definition py_sorted (s : pyset) : result (list atom) :=
  let l := elements s in
  if all_comparable l || (length l <=? 1)%nat
  then Ok (merge_sort atom_le l)
  else Raise TypeError.

(** [set(v)] of a decoded document: the items of a list, the characters of a
    string, the keys of a dict; a [TypeError] for an unhashable item and for
    a document that cannot be iterated. *)
Definition py_set_of (v : json) : result pyset :=
  match v with
  | JArr items =>
      match mapM hashable items with
      | Some l => Ok (py_set l)
      | None => Raise TypeError
      end
  | JStr s => Ok (py_set (map AStr (PyStr.chars s)))
  | JObj members => Ok (py_set (map (fun kv => AStr (fst kv)) members))
  | JNull | JBool _ | JInt _ => Raise TypeError
  end.

(** [v.get(key, default)]: only a dict has [get]. *)
Definition py_get (v : json) (key : string) (default : json) : result json :=
  match v with
  | JObj members => Ok (dict_get key default members)
  | _ => Raise AttributeError
  end.

Definition lift {S A} (r : result A) : M S A := fun w => (r, w).

(** ** The platform and the world *)

(** The largest whole number of seconds that [time.sleep] takes: the
    nanoseconds have to fit a signed 64-bit integer. *)
Definition sleep_max : Z := Eval cbv in (2 ^ 63 - 1) / 10 ^ 9.

(** What [subprocess.run(cmd, capture_output=True, text=True)] returns. *)
Record CompletedProcess : Type := {
  returncode : Z;
  stdout : string;
  stderr : string;
}.

(** The library the agent runs on. [gateway] is the state of the external
    [mailgoat] executable and of the mail system behind it;
    [subprocess_run] runs one command there (it raises when the command
    cannot be run at all); [json_loads] is [None] where [json.loads]
    raises; [json_dumps v] is [json.dumps(v, indent=2)]. *)
Class Platform : Type := {
  gateway : Type;
  subprocess_run : list string -> gateway -> result CompletedProcess * gateway;
  json_loads : string -> option json;
  json_dumps : json -> string;
}.

(** What the agent does to the outside, in the order it does it. *)
Inductive event : Type :=
| Exec (cmd : list string)
| Stdout (line : string)
| Stderr (line : string)
| StderrExc (prefix : string) (exc : exn)
| WriteState (text : string)
| Sleep (secs : Z).

(** What the file system has at [STATE_PATH]. *)
Inductive path_state : Type :=
| Missing                      (* nothing there: [exists()] is [False] *)
| Holds (text : string)        (* a file that [read_text] returns as [text] *)
| Unreadable (e : exn)         (* a file whose [read_text] raises [e]: no
                                  permission to read it, bytes that are not
                                  UTF-8 *)
| Unprobeable (msg : string).  (* [stat] fails with an [OSError] that
                                  [exists()] passes on: a name that is too
                                  long, a directory that may not be searched *)

Record World `{Platform} : Type := {
  state_file : path_state;
  mailgoat : gateway;
  trace : list event;
}.

Section Agent.
Context `{Platform}.

Definition emit (ev : event) : M World unit :=
  fun w => (Ok tt, {| state_file := state_file w;
                      mailgoat := mailgoat w;
                      trace := (trace w ++ [ev])%list |}).

(** [print(line)] *)
Definition print (line : string) : M World unit := emit (Stdout line).

(** [print(line, file=sys.stderr)] *)
Definition print_err (line : string) : M World unit := emit (Stderr line).

(** [print(f"{prefix}{exc}", file=sys.stderr)] *)
Definition print_exc (prefix : string) (exc : exn) : M World unit :=
  emit (StderrExc prefix exc).

(** [time.sleep(secs)] of an [int]: the seconds are converted to
    nanoseconds in a signed 64-bit integer, an [OverflowError] when they
    do not fit, before the sign is looked at. *)
Definition sleep (secs : Z) : M World unit :=
  if (secs <? - sleep_max) || (sleep_max <? secs) then raise OverflowError
  else if secs <? 0 then raise ValueError
  else emit (Sleep secs).

(** [subprocess.run(cmd, capture_output=True, text=True)] *)
Definition run_subprocess (cmd : list string) : M World CompletedProcess :=
  fun w =>
    let '(r, g) := subprocess_run cmd (mailgoat w) in
    (r, {| state_file := state_file w;
           mailgoat := g;
           trace := (trace w ++ [Exec cmd])%list |}).

(** [STATE_PATH.exists()]: [pathlib] answers [False] when [stat] finds
    nothing, and passes on every other [OSError] of [stat]. *)
Definition state_path_exists : M World bool :=
  fun w => match state_file w with
           | Missing => (Ok false, w)
           | Holds _ | Unreadable _ => (Ok true, w)
           | Unprobeable msg => (Raise (OSError msg), w)
           end.

(** [STATE_PATH.read_text(encoding="utf-8")] *)
Definition read_state_file : M World string :=
  fun w => match state_file w with
           | Holds text => (Ok text, w)
           | Unreadable e => (Raise e, w)
           | Missing => (Raise (OSError "No such file or directory"), w)
           | Unprobeable msg => (Raise (OSError msg), w)
           end.

(** [STATE_PATH.parent.mkdir(parents=True, exist_ok=True)]: it makes
    directories, never the state file, and the directories are no part of
    the world. *)
Definition make_state_dir : M World unit := ret tt.

(** [STATE_PATH.write_text(text, encoding="utf-8")], on a file system that
    takes the write: a write that fails part-way is outside the model. *)
Definition write_state_file (text : string) : M World unit :=
  fun w => (Ok tt, {| state_file := Holds text;
                      mailgoat := mailgoat w;
                      trace := (trace w ++ [WriteState text])%list |}).

(** *** Configuration: the module constants read from the environment *)

Record Config : Type := {
  POLL_SECONDS : Z;
  REPLY_PREFIX : string;
  FROM_HINT : string;
}.

(** The values when no environment variable is set. *)
Definition default_config : Config :=
  {| POLL_SECONDS := 300;
     REPLY_PREFIX := "[Auto-Reply]";
     FROM_HINT := EmptyString |}.

(** *** Command gateway *)

(** The diagnostic of a failed command. *)
Definition diagnostic (proc : CompletedProcess) : string :=
  PyStr.or_else (PyStr.strip (stderr proc))
    (PyStr.or_else (PyStr.strip (stdout proc)) "mailgoat command failed").

(** Lines 29-32 of [run_mailgoat]: the result of a completed process. *)
Definition completed (proc : CompletedProcess) : result json :=
  if negb (returncode proc =? 0)%Z then Raise (RuntimeError (diagnostic proc))
  else
    let out := PyStr.strip (stdout proc) in
    if PyStr.truthy out then
      match json_loads out with
      | Some v => Ok v
      | None => Raise JSONDecodeError
      end
    else Ok JNull.

Definition run_mailgoat (args : list string) : M World json :=
  let cmd := (["mailgoat"] ++ args ++ ["--json"])%list in
  proc <- run_subprocess cmd ;;
  lift (completed proc).

(** *** State store *)

Definition state_payload (ids : list atom) : json :=
  JObj [("processed_ids", JArr (map json_of_atom ids))].

(** The contract of the JSON codec that the state store relies on: what
    [json.dumps] writes for a state payload, [json.loads] reads back. *)
Definition json_roundtrip : Prop :=
  forall ids : list atom,
    json_loads (json_dumps (state_payload ids)) = Some (state_payload ids).

(** The body of the [try] of [load_state]. *)
Definition parse_state (text : string) : result pyset :=
  match json_loads text with
  | None => Raise JSONDecodeError
  | Some payload =>
      match py_get payload "processed_ids" (JArr []) with
      | Ok ids => py_set_of ids
      | Raise e => Raise e
      end
  end.

Definition load_state : M World pyset :=
  present <- state_path_exists ;;
  if negb present then ret ∅
  else try_except (text <- read_state_file ;; lift (parse_state text))
                  (fun _ => ret ∅).

Definition save_state (processed_ids : pyset) : M World unit :=
  make_state_dir ;;;
  ids <- lift (py_sorted processed_ids) ;;
  write_state_file (json_dumps (state_payload ids)).

(** *** Reply policy *)

Section Policy.
Variable cfg : Config.

Definition build_reply_subject (original_subject : string) : string :=
  let subject := if PyStr.truthy original_subject
                 then PyStr.strip original_subject
                 else "(no subject)" in
  if PyStr.startswith (PyStr.lower subject) "re:"
  then REPLY_PREFIX cfg +:+ " " +:+ subject
  else REPLY_PREFIX cfg +:+ " Re: " +:+ subject.

Definition build_reply_body (sender subject : string) : string :=
  let lines :=
    [ "Hello " +:+ PyStr.or_else sender "there" +:+ ",";
      EmptyString;
      "Your email was received by the simple MailGoat agent.";
      "This is an automated acknowledgment while a human reviews your message.";
      EmptyString;
      "Original subject: " +:+ PyStr.or_else subject "(no subject)";
      EmptyString;
      "- MailGoat Simple Agent" ] in
  PyStr.join (String PyStr.newline EmptyString) lines.

(** *** Processing cycle *)

(** The loop of [process_messages] runs on the local [processed] and
    the world. *)
Definition in_world {A} (m : M World A) : M (pyset * World) A :=
  fun pw => match m (snd pw) with
            | (r, w') => (r, (fst pw, w'))
            end.

Definition get_processed : M (pyset * World) pyset :=
  fun pw => (Ok (fst pw), pw).

(** [processed.add(msg_id)] *)
Definition add_processed (msg_id : string) : M (pyset * World) unit :=
  fun pw => (Ok tt, (py_add (AStr msg_id) (fst pw), snd pw)).

Definition send_args (sender subject : string) : list string :=
  ([ "send"; "--to"; sender;
     "--subject"; build_reply_subject subject;
     "--body"; build_reply_body sender subject ]
   ++ (if PyStr.truthy (FROM_HINT cfg) then ["--from"; FROM_HINT cfg] else []))%list.

(** The body of [for entry in inbox]; [ret tt] is [continue]. *)
Definition process_entry (entry : json) : M (pyset * World) unit :=
  id_field <- lift (py_get entry "id" (JStr EmptyString)) ;;
  let msg_id := PyStr.strip (py_str id_field) in
  processed <- get_processed ;;
  if negb (PyStr.truthy msg_id) || py_in (AStr msg_id) processed then ret tt
  else
    details <- in_world (run_mailgoat ["read"; msg_id]) ;;
    from_field <- lift (py_get details "from" (JStr EmptyString)) ;;
    let sender := PyStr.strip (py_str from_field) in
    subject_field <- lift (py_get details "subject" (JStr EmptyString)) ;;
    let subject := PyStr.strip (py_str subject_field) in
    if negb (PyStr.truthy sender) then add_processed msg_id
    else
      (in_world (run_mailgoat (send_args sender subject)) ;;;
       add_processed msg_id ;;;
       in_world (print ("Replied to " +:+ sender +:+ " for message " +:+ msg_id))).

Fixpoint process_entries (inbox : list json) : M (pyset * World) unit :=
  match inbox with
  | [] => ret tt
  | entry :: rest => process_entry entry ;;; process_entries rest
  end.

(** Runs the loop on the local [processed]; an exception leaves the
    function and the local is gone. *)
Definition with_processed (processed : pyset) (m : M (pyset * World) unit)
  : M World pyset :=
  fun w => match m (processed, w) with
           | (Ok _, (processed', w')) => (Ok processed', w')
           | (Raise e, (_, w')) => (Raise e, w')
           end.

Definition inbox_list_args : list string := ["inbox"; "list"; "--limit"; "50"].

Definition process_messages : M World unit :=
  processed <- load_state ;;
  inbox <- run_mailgoat inbox_list_args ;;
  match inbox with
  | JArr entries =>
      processed' <- with_processed processed (process_entries entries) ;;
      save_state processed'
  | _ => print_err "Unexpected inbox payload, expected JSON array"
  end.

(** *** Poll scheduler *)

(** One turn of [while True]. *)
Definition main_iteration : M World unit :=
  try_except process_messages
    (fun exc => print_exc "Agent iteration failed: " exc) ;;;
  sleep (POLL_SECONDS cfg).

(** The first [n] turns of the loop. *)
Fixpoint main_loop (n : nat) : M World unit :=
  match n with
  | O => ret tt
  | S k => main_iteration ;;; main_loop k
  end.

Definition main (n : nat) : M World unit :=
  print ("Simple agent started. Poll interval: "
         +:+ PyStr.of_Z (POLL_SECONDS cfg) +:+ "s") ;;;
  main_loop n.

End Policy.
End Agent.

(** ** A reference platform

    A JSON printer and parser on the documents of the model, and a gateway
    that answers each command from a fixed table. The examples of this
    development run on it. The parser reads integers only: a number with a
    fraction or an exponent has no document in the model. *)

Module RefJson.
Import PyStr.

Definition is_ws (c : ascii) : bool :=
  let n := code c in
  ((n =? 32) || (n =? 9) || (n =? 10) || (n =? 13))%nat.

Fixpoint skip_ws (s : string) : string :=
  match s with
  | String c r => if is_ws c then skip_ws r else s
  | EmptyString => EmptyString
  end.

(** *** Printer, in the layout of [indent=2] *)

Definition escape_char (c : ascii) : string :=
  let n := code c in
  if (n =? 34)%nat then String backslash (String dquote EmptyString)
  else if (n =? 92)%nat then String backslash (String backslash EmptyString)
  else if (n =? 8)%nat then "\b"
  else if (n =? 12)%nat then "\f"
  else if (n =? 10)%nat then "\n"
  else if (n =? 13)%nat then "\r"
  else if (n =? 9)%nat then "\t"
  else if ((n <? 32) || (126 <? n))%nat
  then "\u00" +:+ String (hex_digit (n / 16))
                     (String (hex_digit (n mod 16)) EmptyString)
  else String c EmptyString.

Fixpoint escape (s : string) : string :=
  match s with
  | String c r => escape_char c +:+ escape r
  | EmptyString => EmptyString
  end.

Definition quote (s : string) : string :=
  String dquote (escape s +:+ String dquote EmptyString).

Fixpoint spaces (n : nat) : string :=
  match n with
  | O => EmptyString
  | S k => String " "%char (spaces k)
  end.

(** A line break and the indentation of nesting depth [level]. *)
Definition break (level : nat) : string :=
  String newline (spaces (2 * level)).

Fixpoint dumps_at (level : nat) (v : json) : string :=
  match v with
  | JNull => "null"
  | JBool true => "true"
  | JBool false => "false"
  | JInt n => of_Z n
  | JStr s => quote s
  | JArr [] => "[]"
  | JArr items =>
      "[" +:+ break (S level)
      +:+ join ("," +:+ break (S level)) (map (dumps_at (S level)) items)
      +:+ break level +:+ "]"
  | JObj [] => "{}"
  | JObj members =>
      "{" +:+ break (S level)
      +:+ join ("," +:+ break (S level))
            (map (fun kv => match kv with
                            | (k, x) => quote k +:+ ": " +:+ dumps_at (S level) x
                            end) members)
      +:+ break level +:+ "}"
  end.

Definition dumps (v : json) : string := dumps_at 0 v.

(** *** Parser *)

Definition hex_value (c : ascii) : option nat :=
  let n := code c in
  if ((48 <=? n) && (n <=? 57))%nat then Some (n - 48)%nat
  else if ((97 <=? n) && (n <=? 102))%nat then Some (n - 87)%nat
  else if ((65 <=? n) && (n <=? 70))%nat then Some (n - 55)%nat
  else None.

Definition unescape (c : ascii) : option ascii :=
  let n := code c in
  if (n =? 34)%nat then Some dquote
  else if (n =? 92)%nat then Some backslash
  else if (n =? 47)%nat then Some "/"%char
  else if (n =? 98)%nat then Some (ascii_of_nat 8)
  else if (n =? 102)%nat then Some (ascii_of_nat 12)
  else if (n =? 110)%nat then Some (ascii_of_nat 10)
  else if (n =? 114)%nat then Some (ascii_of_nat 13)
  else if (n =? 116)%nat then Some (ascii_of_nat 9)
  else None.

Definition cons_char (c : ascii) (r : option (string * string))
  : option (string * string) :=
  match r with
  | Some (t, rest) => Some (String c t, rest)
  | None => None
  end.

(** The characters of a string literal after its opening quote, and what
    follows the closing quote. *)
Fixpoint parse_chars (s : string) : option (string * string) :=
  match s with
  | EmptyString => None
  | String c r =>
      if Ascii.eqb c dquote then Some (EmptyString, r)
      else if Ascii.eqb c backslash then
        match r with
        | String e r1 =>
            if Ascii.eqb e "u"%char then
              match r1 with
              | String h1 (String h2 (String h3 (String h4 r2))) =>
                  match hex_value h1, hex_value h2, hex_value h3, hex_value h4 with
                  | Some 0%nat, Some 0%nat, Some a, Some b =>
                      cons_char (ascii_of_nat (16 * a + b)) (parse_chars r2)
                  | _, _, _, _ => None
                  end
              | _ => None
              end
            else
              match unescape e with
              | Some ch => cons_char ch (parse_chars r1)
              | None => None
              end
        | EmptyString => None
        end
      else if (code c <? 32)%nat then None
      else cons_char c (parse_chars r)
  end.

Definition is_number_char (c : ascii) : bool :=
  let n := code c in
  ((48 <=? n) && (n <=? 57) || (n =? 45))%nat.

(** The longest prefix made of digits and minus signs, and the rest. *)
Fixpoint span_number (s : string) : string * string :=
  match s with
  | String c r =>
      if is_number_char c
      then let '(t, rest) := span_number r in (String c t, rest)
      else (EmptyString, s)
  | EmptyString => (EmptyString, EmptyString)
  end.

(** A text of digits and minus signs. *)
Fixpoint number_text (s : string) : bool :=
  match s with
  | String c r => is_number_char c && number_text r
  | EmptyString => true
  end.

(** What follows a number does not continue it. *)
Definition delimited (rest : string) : Prop :=
  match rest with
  | String c _ => is_number_char c = false
  | EmptyString => True
  end.

Definition parse_number (s : string) : option (json * string) :=
  let '(t, rest) := span_number s in
  match NilZero.int_of_string t with
  | Some d =>
      let n := Z.of_int d in
      if String.eqb (of_Z n) t then Some (JInt n, rest) else None
  | None => None
  end.

(** [s] without its prefix [word]. *)
Fixpoint drop_prefix (word s : string) : option string :=
  match word with
  | EmptyString => Some s
  | String a word' =>
      match s with
      | String b s' => if Ascii.eqb a b then drop_prefix word' s' else None
      | EmptyString => None
      end
  end.

Definition expect (word : string) (v : json) (s : string) : option (json * string) :=
  match drop_prefix word s with
  | Some rest => Some (v, rest)
  | None => None
  end.

Fixpoint parse_value (fuel : nat) (s : string) : option (json * string) :=
  match fuel with
  | O => None
  | S f =>
      match skip_ws s with
      | EmptyString => None
      | String c r =>
          if Ascii.eqb c dquote then
            match parse_chars r with
            | Some (t, rest) => Some (JStr t, rest)
            | None => None
            end
          else if Ascii.eqb c "["%char then
            match skip_ws r with
            | String "]"%char rest => Some (JArr [], rest)
            | _ =>
                match parse_items f r with
                | Some (items, rest) => Some (JArr items, rest)
                | None => None
                end
            end
          else if Ascii.eqb c "{"%char then
            match skip_ws r with
            | String "}"%char rest => Some (JObj [], rest)
            | _ =>
                match parse_members f r with
                | Some (pairs, rest) => Some (JObj (dict_of_pairs pairs), rest)
                | None => None
                end
            end
          else if Ascii.eqb c "n"%char then expect "null" JNull (String c r)
          else if Ascii.eqb c "t"%char then expect "true" (JBool true) (String c r)
          else if Ascii.eqb c "f"%char then expect "false" (JBool false) (String c r)
          else parse_number (String c r)
      end
  end
with parse_items (fuel : nat) (s : string) : option (list json * string) :=
  match fuel with
  | O => None
  | S f =>
      match parse_value f s with
      | Some (v, r) =>
          match skip_ws r with
          | String ","%char r' =>
              match parse_items f r' with
              | Some (vs, rest) => Some (v :: vs, rest)
              | None => None
              end
          | String "]"%char rest => Some ([v], rest)
          | _ => None
          end
      | None => None
      end
  end
with parse_members (fuel : nat) (s : string)
  : option (list (string * json) * string) :=
  match fuel with
  | O => None
  | S f =>
      match skip_ws s with
      | String c r =>
          if Ascii.eqb c dquote then
            match parse_chars r with
            | Some (k, r1) =>
                match skip_ws r1 with
                | String ":"%char r2 =>
                    match parse_value f r2 with
                    | Some (v, r3) =>
                        match skip_ws r3 with
                        | String ","%char r4 =>
                            match parse_members f r4 with
                            | Some (ms, rest) => Some ((k, v) :: ms, rest)
                            | None => None
                            end
                        | String "}"%char rest => Some ([(k, v)], rest)
                        | _ => None
                        end
                    | None => None
                    end
                | _ => None
                end
            | None => None
            end
          else None
      | EmptyString => None
      end
  end.

(** The whole text is one document. *)
Definition loads (s : string) : option json :=
  match parse_value (2 * String.length s + 2) s with
  | Some (v, rest) =>
      match skip_ws rest with
      | EmptyString => Some v
      | _ => None
      end
  | None => None
  end.

End RefJson.

(** The platform whose gateway answers each command with [respond]. *)
Definition table_platform (respond : list string -> result CompletedProcess)
  : Platform :=
  {| gateway := unit;
     subprocess_run := fun cmd g => (respond cmd, g);
     json_loads := RefJson.loads;
     json_dumps := RefJson.dumps |}.

(** Four runs of the agent on the reference platform: an inbox of three
    messages [m1], [m2], [m3], where [m3] has no sender. *)
Module Demo.

Inductive scenario : Type :=
| Healthy      (* every command succeeds *)
| SendFails    (* the reply to c@d.com, the sender of m2, fails *)
| ReadEmpty    (* reading m2 succeeds without output *)
| BadListing.  (* the listing is a dict, not an array *)

Definition succeeded (out : string) : result CompletedProcess :=
  Ok {| returncode := 0; stdout := out; stderr := EmptyString |}.

Definition failed (code : Z) (out err : string) : result CompletedProcess :=
  Ok {| returncode := code; stdout := out; stderr := err |}.

Definition inbox : list json :=
  [ JObj [("id", JStr "m1")]; JObj [("id", JStr "m2")]; JObj [("id", JStr "m3")] ].

Definition details (sender subject : string) : string :=
  RefJson.dumps (JObj [("from", JStr sender); ("subject", JStr subject)]).

Definition respond (sc : scenario) (cmd : list string) : result CompletedProcess :=
  match cmd with
  | ["mailgoat"; "inbox"; "list"; "--limit"; "50"; "--json"] =>
      match sc with
      | BadListing => succeeded "{}"
      | _ => succeeded (RefJson.dumps (JArr inbox))
      end
  | ["mailgoat"; "read"; "m1"; "--json"] => succeeded (details "a@b.com" "Hi")
  | ["mailgoat"; "read"; "m2"; "--json"] =>
      match sc with
      | ReadEmpty => succeeded EmptyString
      | _ => succeeded (details "c@d.com" "re: offer")
      end
  | ["mailgoat"; "read"; "m3"; "--json"] => succeeded (details EmptyString "Hello")
  | "mailgoat" :: "send" :: "--to" :: recipient :: _ =>
      match sc with
      | SendFails =>
          if String.eqb recipient "c@d.com"
          then failed 1 EmptyString " smtp down "
          else succeeded "{}"
      | _ => succeeded "{}"
      end
  | _ => failed 2 "usage: mailgoat" EmptyString
  end.

Definition platform (sc : scenario) : Platform := table_platform (respond sc).

(** The world before the first run: no state file, nothing done yet. *)
Definition fresh (sc : scenario) : @World (platform sc) :=
  @Build_World (platform sc) Missing tt [].

(** The same, with a state file of the given text. *)
Definition with_file (sc : scenario) (text : string) : @World (platform sc) :=
  @Build_World (platform sc) (Holds text) tt [].

(** The world after the listing, and the loop over the listing from the
    empty set. *)
Definition listed (sc : scenario) : @World (platform sc) :=
  snd (run_mailgoat inbox_list_args (fresh sc)).

Definition pass (sc : scenario) : result unit * (pyset * @World (platform sc)) :=
  process_entries default_config inbox (∅, listed sc).

(** The world after one cycle. *)
Definition cycled (sc : scenario) : @World (platform sc) :=
  snd (process_messages default_config (fresh sc)).

(** A configuration with a sender override and a negative poll interval. *)
Definition hasty_config : Config :=
  {| POLL_SECONDS := -5;
     REPLY_PREFIX := "[Auto-Reply]";
     FROM_HINT := "bot@example.com" |}.

(** A configuration whose poll interval is out of the range of
    [time.sleep]. *)
Definition far_past_config : Config :=
  {| POLL_SECONDS := -9223372037;
     REPLY_PREFIX := "[Auto-Reply]";
     FROM_HINT := EmptyString |}.

(** The world before the first run when the state path cannot be probed:
    [STATE_FILE] names a file whose name is longer than the file system
    allows. *)
Definition blocked (sc : scenario) : @World (platform sc) :=
  @Build_World (platform sc) (Unprobeable "File name too long") tt [].

(** The world before the first run when the state file may not be read. *)
Definition locked (sc : scenario) : @World (platform sc) :=
  @Build_World (platform sc) (Unreadable (OSError "Permission denied")) tt [].

(** A state file that lists a number among the processed identifiers. *)
Definition foreign_state : string := RefJson.dumps (state_payload [AInt 7]).

(** The world before the first run, with that state file. *)
Definition foreign (sc : scenario) : @World (platform sc) :=
  with_file sc foreign_state.

(** A state file that lists an identifier twice. *)
Definition repeated_state : string :=
  RefJson.dumps (state_payload [AStr "b"; AStr "a"; AStr "b"]).

End Demo.

(** The set of the strings [ids], as a Python set. *)
Definition str_set (ids : gset string) : pyset := set_map AStr ids.

Definition is_str (a : atom) : bool :=
  match a with AStr _ => true | _ => false end.

(** A listing with an entry that is no dict: [m3], then the string "oops",
    then an entry whose identifier is [null]. *)
Module DemoOdd.

Definition inbox : list json :=
  [ JObj [("id", JStr "m3")]; JStr "oops"; JObj [("id", JNull)] ].

Definition respond (cmd : list string) : result CompletedProcess :=
  match cmd with
  | ["mailgoat"; "inbox"; "list"; "--limit"; "50"; "--json"] =>
      Demo.succeeded (RefJson.dumps (JArr inbox))
  | ["mailgoat"; "read"; "m3"; "--json"] =>
      Demo.succeeded (Demo.details EmptyString "Hello")
  | _ => Demo.failed 2 "usage: mailgoat" EmptyString
  end.

Definition platform : Platform := table_platform respond.

Definition fresh : @World platform := @Build_World platform Missing tt [].

Definition listed : @World platform := snd (run_mailgoat inbox_list_args fresh).

End DemoOdd.

(** A machine without the [mailgoat] executable: no command can be run. *)
Module DemoDown.

Definition platform : Platform :=
  table_platform (fun _ => Raise (OSError "mailgoat: not found")).

Definition fresh : @World platform := @Build_World platform Missing tt [].

End DemoDown.

(** ** Observations on a run *)

(** What the loop over the entries does to the outside: it runs commands
    and prints to the standard output. *)
Definition loop_event (ev : event) : bool :=
  match ev with Exec _ | Stdout _ => true | _ => false end.


Definition is_sleep (ev : event) : bool :=
  match ev with Sleep _ => true | _ => false end.

(** From [w] to [w'] the state file was not written: its text is the same,
    and the trace grew by commands and lines on the standard output only,
    so by no [WriteState]. *)
Definition unsaved `{Platform} (w w' : World) : Prop :=
  state_file w' = state_file w
  /\ exists evs, trace w' = (trace w ++ evs)%list
                 /\ forallb loop_event evs = true.

(** One step of the loop either leaves [processed] as it is or adds one
    identifier that was not in it. *)
Definition grows_by_one (p p' : pyset) : Prop :=
  p' = p \/ exists msg_id, (AStr msg_id ∉ p) /\ p' = {[ AStr msg_id ]} ∪ p.

(** The identifier of a listing entry, as the loop computes it. *)
Definition entry_id (entry : json) : option string :=
  match entry with
  | JObj members =>
      Some (PyStr.strip (py_str (dict_get "id" (JStr EmptyString) members)))
  | _ => None
  end.

(** The command that reads one message, and the command that sends one
    reply, as [run_mailgoat] runs them. *)
Definition read_cmd (msg_id : string) : list string :=
  ["mailgoat"; "read"; msg_id; "--json"].

Definition send_cmd (cfg : Config) (sender subject : string) : list string :=
  (["mailgoat"] ++ send_args cfg sender subject ++ ["--json"])%list.

Definition replied_line (sender msg_id : string) : string :=
  "Replied to " +:+ sender +:+ " for message " +:+ msg_id.

(** What one turn of the loop can add to the trace: nothing; the read of an
    identifier; the read and the reply to a sender; the read, the reply and
    the line that reports it. *)
Inductive turn_events (cfg : Config) : list event -> Prop :=
| turn_idle : turn_events cfg []
| turn_read (msg_id : string) :
    msg_id <> EmptyString ->
    turn_events cfg [Exec (read_cmd msg_id)]
| turn_send (msg_id sender subject : string) :
    msg_id <> EmptyString -> sender <> EmptyString ->
    turn_events cfg [Exec (read_cmd msg_id); Exec (send_cmd cfg sender subject)]
| turn_replied (msg_id sender subject : string) :
    msg_id <> EmptyString -> sender <> EmptyString ->
    turn_events cfg [Exec (read_cmd msg_id); Exec (send_cmd cfg sender subject);
                     Stdout (replied_line sender msg_id)].



(** The world that a turn leaves when its sleep raises: the cycle and its
    diagnostic, no sleep. *)
Definition before_sleep `{Platform} (cfg : Config) (w : World) : World :=
  let cycle := process_messages cfg w in
  {| state_file := state_file (snd cycle);
     mailgoat := mailgoat (snd cycle);
     trace := (trace (snd cycle)
               ++ match fst cycle with
                  | Ok _ => []
                  | Raise exc => [StderrExc "Agent iteration failed: " exc]
                  end)%list |}.


Definition is_exec (ev : event) : bool :=
  match ev with Exec _ => true | _ => false end.

(** The number of commands among some events. *)
Definition commands (evs : list event) : nat := length (filter is_exec evs).

(** The non-empty identifiers of a listing. *)
Definition listed_id (entries : list json) (msg_id : string) : Prop :=
  msg_id <> EmptyString
  /\ exists entry, entry ∈ entries /\ entry_id entry = Some msg_id.

(** ** The wording of the specification, for comparison with the code *)

(** "starts with re:, case-insensitively" *)
Definition re_prefixed (s : string) : bool :=
  match s with
  | String r (String e (String c _)) =>
      (Ascii.eqb r "r" || Ascii.eqb r "R")
      && (Ascii.eqb e "e" || Ascii.eqb e "E")
      && Ascii.eqb c ":"
  | _ => false
  end.

(** [buildReplySubject] as the specification words it: the test is on the
    trimmed subject, the result is built from the original subject. *)
Definition spec_reply_subject (cfg : Config) (original_subject : string) : string :=
  if re_prefixed (PyStr.strip original_subject)
  then REPLY_PREFIX cfg +:+ " " +:+ original_subject
  else REPLY_PREFIX cfg +:+ " Re: "
       +:+ (if PyStr.truthy original_subject then original_subject
            else "(no subject)").

(** The diagnostic of a failed command as the specification words it: the
    captured error stream, else the captured standard output, else a generic
    message. *)
Definition spec_diagnostic (proc : CompletedProcess) : string :=
  PyStr.or_else (stderr proc)
    (PyStr.or_else (stdout proc) "mailgoat command failed").

(** The text that [build_reply_subject] prefixes: the trimmed subject, or
    "(no subject)" for the empty subject. *)
Definition subject_text (original_subject : string) : string :=
  match original_subject with
  | EmptyString => "(no subject)"
  | _ => PyStr.strip original_subject
  end.

(** * Properties *)

(** ** Reply policy *)

Lemma lower_char_r (c : ascii) :
  Ascii.eqb (PyStr.lower_char c) "r" = Ascii.eqb c "r" || Ascii.eqb c "R".
Proof. destruct c as [[] [] [] [] [] [] [] []]; reflexivity. Qed.

Lemma lower_char_e (c : ascii) :
  Ascii.eqb (PyStr.lower_char c) "e" = Ascii.eqb c "e" || Ascii.eqb c "E".
Proof. destruct c as [[] [] [] [] [] [] [] []]; reflexivity. Qed.

Lemma lower_char_colon (c : ascii) :
  Ascii.eqb (PyStr.lower_char c) ":" = Ascii.eqb c ":".
Proof. destruct c as [[] [] [] [] [] [] [] []]; reflexivity. Qed.

Lemma ascii_dec_eqb {A} (a b : ascii) (x y : A) :
  (if ascii_dec a b then x else y) = (if Ascii.eqb b a then x else y).
Proof.
  destruct (ascii_dec a b) as [->|Hne].
  - now rewrite Ascii.eqb_refl.
  - destruct (Ascii.eqb_spec b a); congruence.
Qed.

(** The test of the code, [subject.lower().startswith("re:")], is the
    case-insensitive test on the first three characters. *)
Lemma startswith_lower_re (s : string) :
  PyStr.startswith (PyStr.lower s) "re:" = re_prefixed s.
Proof.
  unfold PyStr.startswith.
  destruct s as [|c1 [|c2 [|c3 rest]]]; simpl;
    repeat rewrite ascii_dec_eqb;
    rewrite ?lower_char_r, ?lower_char_e, ?lower_char_colon;
    try reflexivity.
  - destruct (_ || _); reflexivity.
  - destruct (Ascii.eqb c1 "r" || Ascii.eqb c1 "R"); [|reflexivity].
    destruct (_ || _); reflexivity.
  - destruct (Ascii.eqb c1 "r" || Ascii.eqb c1 "R"); [|reflexivity].
    destruct (Ascii.eqb c2 "e" || Ascii.eqb c2 "E"); [|reflexivity].
    destruct (Ascii.eqb c3 ":"); [|reflexivity].
    destruct (PyStr.lower rest); reflexivity.
Qed.

Lemma build_reply_subject_text (cfg : Config) (original_subject : string) :
  build_reply_subject cfg original_subject =
  if re_prefixed (subject_text original_subject)
  then REPLY_PREFIX cfg +:+ " " +:+ subject_text original_subject
  else REPLY_PREFIX cfg +:+ " Re: " +:+ subject_text original_subject.
Proof.
  unfold build_reply_subject, subject_text.
  destruct original_subject as [|c r].
  - reflexivity.
  - cbn [PyStr.truthy]. rewrite startswith_lower_re. reflexivity.
Qed.

(** C3, as amended: the reply subject is the marker, one space, and the
    trimmed subject when that starts with "re:" in any case; otherwise the
    marker, one space, "Re: " and the trimmed subject; the empty subject
    counts as "(no subject)". *)
Theorem build_reply_subject_trimmed (cfg : Config) (original_subject : string) :
  build_reply_subject cfg original_subject =
  REPLY_PREFIX cfg +:+ " "
  +:+ (if re_prefixed (subject_text original_subject)
       then subject_text original_subject
       else "Re: " +:+ subject_text original_subject).
Proof.
  rewrite build_reply_subject_text.
  destruct (re_prefixed _); reflexivity.
Qed.

(** C3 as the specification words it fails on a subject with white space
    around it: the code prefixes the trimmed subject, not the original. *)
Lemma build_reply_subject_not_original :
  build_reply_subject default_config " re: x"
  <> spec_reply_subject default_config " re: x"
  /\ build_reply_subject default_config " re: x" = "[Auto-Reply] re: x"
  /\ spec_reply_subject default_config " re: x" = "[Auto-Reply]  re: x".
Proof. repeat split; [discriminate | reflexivity..]. Qed.

(** On a subject without white space around it the code and the wording of
    the specification agree. *)
Lemma build_reply_subject_spec_on_trimmed (cfg : Config) (s : string) :
  PyStr.strip s = s -> build_reply_subject cfg s = spec_reply_subject cfg s.
Proof.
  intros Hs. rewrite build_reply_subject_text.
  unfold spec_reply_subject, subject_text. rewrite Hs.
  destruct s as [|c r]; [reflexivity|].
  cbn [PyStr.truthy]. destruct (re_prefixed _); reflexivity.
Qed.

(** ** Command gateway *)

Section Gateway.
Context `{Platform}.

Lemma or_else_nonempty (a b : string) :
  a <> EmptyString -> PyStr.or_else a b = a.
Proof. unfold PyStr.or_else. destruct a; simpl; congruence. Qed.

Lemma or_else_empty (b : string) : PyStr.or_else EmptyString b = b.
Proof. reflexivity. Qed.

Lemma run_mailgoat_completed (args : list string) (w : World)
      (proc : CompletedProcess) (g : gateway) :
  subprocess_run (["mailgoat"] ++ args ++ ["--json"])%list (mailgoat w) = (Ok proc, g) ->
  run_mailgoat args w =
  (completed proc,
   {| state_file := state_file w; mailgoat := g;
      trace := (trace w ++ [Exec (["mailgoat"] ++ args ++ ["--json"])])%list |}).
Proof.
  intros Hrun. unfold run_mailgoat, bind, run_subprocess, lift.
  rewrite Hrun. reflexivity.
Qed.

(** C7, as amended: a gateway operation is a function of the exit code and
    the captured streams of the command it ran. It raises the gateway's
    [RuntimeError] exactly when the exit code is not zero, and the
    diagnostic is then the trimmed error stream; when that is empty, the
    trimmed standard output; when that is empty too, a generic message. A
    zero exit whose trimmed output is empty gives the absent result [None];
    a zero exit with output that does not parse raises as well. *)
Theorem run_mailgoat_contract (args : list string) (w : World)
        (proc : CompletedProcess) (g : gateway) :
  subprocess_run (["mailgoat"] ++ args ++ ["--json"])%list (mailgoat w) = (Ok proc, g) ->
  fst (run_mailgoat args w) = completed proc
  /\ (returncode proc <> 0 ->
      completed proc = Raise (RuntimeError (diagnostic proc)))
  /\ (returncode proc = 0 ->
      forall msg, completed proc <> Raise (RuntimeError msg))
  /\ (PyStr.strip (stderr proc) <> EmptyString ->
      diagnostic proc = PyStr.strip (stderr proc))
  /\ (PyStr.strip (stderr proc) = EmptyString ->
      PyStr.strip (stdout proc) <> EmptyString ->
      diagnostic proc = PyStr.strip (stdout proc))
  /\ (PyStr.strip (stderr proc) = EmptyString ->
      PyStr.strip (stdout proc) = EmptyString ->
      diagnostic proc = "mailgoat command failed")
  /\ (returncode proc = 0 -> PyStr.strip (stdout proc) = EmptyString ->
      completed proc = Ok JNull)
  /\ (returncode proc = 0 -> PyStr.strip (stdout proc) <> EmptyString ->
      json_loads (PyStr.strip (stdout proc)) = None ->
      completed proc = Raise JSONDecodeError)
  /\ (returncode proc = 0 -> PyStr.strip (stdout proc) <> EmptyString ->
      forall v, json_loads (PyStr.strip (stdout proc)) = Some v ->
      completed proc = Ok v).
Proof.
  intros Hrun.
  split; [rewrite (run_mailgoat_completed _ _ _ _ Hrun); reflexivity|].
  unfold completed, diagnostic.
  destruct (Z.eqb_spec (returncode proc) 0) as [Hz|Hnz]; simpl.
  - split; [congruence|].
    split.
    { intros _ msg. destruct (PyStr.strip (stdout proc)); simpl;
        [discriminate|]. destruct (json_loads _); discriminate. }
    split; [intros Hne; apply or_else_nonempty; exact Hne|].
    split.
    { intros He Ho. rewrite He, or_else_empty.
      apply or_else_nonempty; exact Ho. }
    split; [intros -> ->; reflexivity|].
    split; [intros _ ->; reflexivity|].
    split.
    + intros _ Ho Hl. destruct (PyStr.strip (stdout proc)) eqn:E; [congruence|].
      simpl. rewrite Hl. reflexivity.
    + intros _ Ho v Hl. destruct (PyStr.strip (stdout proc)) eqn:E; [congruence|].
      simpl. rewrite Hl. reflexivity.
  - split; [reflexivity|].
    split; [congruence|].
    split; [intros Hne; apply or_else_nonempty; exact Hne|].
    split.
    { intros He Ho. rewrite He, or_else_empty.
      apply or_else_nonempty; exact Ho. }
    split; [intros -> ->; reflexivity|].
    repeat split; congruence.
Qed.

End Gateway.

(** C7 as the specification words it fails on streams with white space
    around them: the diagnostic is the trimmed stream, and an error stream of
    white space alone falls back to the standard output. *)
Lemma diagnostic_not_raw_stream :
  let proc := {| returncode := 1; stdout := "usage: mailgoat"; stderr := " " |} in
  @completed (Demo.platform Demo.Healthy) proc
  = Raise (RuntimeError "usage: mailgoat")
  /\ spec_diagnostic proc = " "
  /\ @completed (Demo.platform Demo.Healthy) proc
     <> Raise (RuntimeError (spec_diagnostic proc)).
Proof. repeat split; [reflexivity..|discriminate]. Qed.

(** A failed command: the diagnostic is the trimmed error stream. *)
Lemma run_mailgoat_contract_witness :
  subprocess_run (["mailgoat"] ++ ["send"; "--to"; "c@d.com"] ++ ["--json"])%list
    (mailgoat (Demo.fresh Demo.SendFails))
  = (Demo.failed 1 EmptyString " smtp down ", tt)
  /\ fst (run_mailgoat ["send"; "--to"; "c@d.com"] (Demo.fresh Demo.SendFails))
     = Raise (RuntimeError "smtp down").
Proof.
  split; [reflexivity|].
  destruct (@run_mailgoat_contract (Demo.platform Demo.SendFails)
              ["send"; "--to"; "c@d.com"] (Demo.fresh Demo.SendFails)
              {| returncode := 1; stdout := EmptyString; stderr := " smtp down " |}
              tt eq_refl) as (Hfst & Hfail & _).
  rewrite Hfst. rewrite Hfail; [reflexivity | discriminate].
Defined.

(** ** Python sets of hashable values *)

Lemma py_eq_str_l (s : string) (b : atom) : py_eq (AStr s) b = bool_decide (AStr s = b).
Proof.
  unfold py_eq. destruct b; simpl; try reflexivity;
    symmetry; apply bool_decide_eq_false; discriminate.
Qed.

Lemma py_in_str (s : string) (p : pyset) :
  py_in (AStr s) p = true <-> AStr s ∈ p.
Proof.
  unfold py_in. rewrite existsb_exists. split.
  - intros (b & Hb & Heq). rewrite py_eq_str_l in Heq.
    apply bool_decide_eq_true in Heq. subst b.
    apply elem_of_elements, list_elem_of_In, Hb.
  - intros Hin. exists (AStr s). split.
    + apply list_elem_of_In, elem_of_elements, Hin.
    + rewrite py_eq_str_l. apply bool_decide_eq_true. reflexivity.
Qed.

Lemma py_in_str_false (s : string) (p : pyset) :
  py_in (AStr s) p = false <-> AStr s ∉ p.
Proof.
  rewrite <- py_in_str. destruct (py_in (AStr s) p); split; congruence.
Qed.

Lemma py_add_str (s : string) (p : pyset) : py_add (AStr s) p = {[ AStr s ]} ∪ p.
Proof.
  unfold py_add. destruct (py_in (AStr s) p) eqn:E; [|reflexivity].
  apply py_in_str in E. set_solver.
Qed.





Lemma py_set_fold_strings (l : list atom) (acc : pyset) :
  forallb is_str l = true ->
  fold_left (fun s a => py_add a s) l acc = list_to_set l ∪ acc.
Proof.
  revert acc. induction l as [|a l IH]; intros acc; simpl.
  - intros _. set_solver.
  - intros Hl. apply andb_prop in Hl as [Ha Hl].
    destruct a; try discriminate.
    rewrite IH by exact Hl. rewrite py_add_str. set_solver.
Qed.

(** A set built from strings is the set of those strings. *)
Lemma py_set_strings (l : list atom) :
  forallb is_str l = true -> py_set l = list_to_set l.
Proof.
  intros Hl. unfold py_set. rewrite py_set_fold_strings by exact Hl. set_solver.
Qed.


Lemma hashable_json_of_atom (l : list atom) :
  mapM hashable (map json_of_atom l) = Some l.
Proof.
  apply mapM_Some. induction l as [|a l IH]; simpl; constructor; auto.
  destruct a; reflexivity.
Qed.

Lemma all_comparable_strings (l : list atom) :
  forallb is_str l = true -> all_comparable l = true.
Proof.
  intros Hl. unfold all_comparable.
  rewrite forallb_forall in Hl |- *. intros a Ha.
  apply forallb_forall. intros b Hb.
  apply Hl in Ha. apply Hl in Hb. destruct a, b; try discriminate. reflexivity.
Qed.


Lemma str_set_elements_strings (ids : gset string) :
  forallb is_str (elements (str_set ids)) = true.
Proof.
  apply forallb_forall. intros a Ha.
  apply list_elem_of_In, elem_of_elements in Ha.
  unfold str_set in Ha. apply elem_of_map in Ha as (s & -> & _). reflexivity.
Qed.

Lemma forallb_perm {A} (f : A -> bool) (l k : list A) :
  l ≡ₚ k -> forallb f l = forallb f k.
Proof.
  induction 1; simpl; try congruence.
  destruct (f x), (f y); reflexivity.
Qed.





(** ** The reference codec reads back what it writes for a state payload *)

Module RefJsonFacts.
Import PyStr RefJson.

Lemma append_nil (b : string) : EmptyString +:+ b = b.
Proof. reflexivity. Qed.

Lemma append_cons (c : ascii) (a b : string) :
  String c a +:+ b = String c (a +:+ b).
Proof. reflexivity. Qed.

Lemma append_assoc (a b c : string) : (a +:+ b) +:+ c = a +:+ (b +:+ c).
Proof.
  induction a as [|x a IH]; [reflexivity|].
  rewrite !append_cons. now rewrite IH.
Qed.

Lemma length_append (a b : string) :
  String.length (a +:+ b) = (String.length a + String.length b)%nat.
Proof.
  induction a as [|x a IH]; [reflexivity|].
  rewrite append_cons. simpl. now rewrite IH.
Qed.

(** *** Strings *)

Lemma parse_chars_escape_char (c : ascii) (t : string) :
  parse_chars (escape_char c +:+ t) = cons_char c (parse_chars t).
Proof. destruct c as [[] [] [] [] [] [] [] []]; reflexivity. Qed.

Lemma parse_chars_escape (s rest : string) :
  parse_chars (escape s +:+ String dquote rest) = Some (s, rest).
Proof.
  induction s as [|c s IH]; [reflexivity|].
  cbn [escape]. rewrite append_assoc, parse_chars_escape_char, IH.
  reflexivity.
Qed.

Lemma quote_append (s rest : string) :
  quote s +:+ rest = String dquote (escape s +:+ String dquote rest).
Proof.
  unfold quote. rewrite append_cons, append_assoc, append_cons, append_nil.
  reflexivity.
Qed.

(** *** Numbers *)

Lemma span_number_append (s rest : string) :
  number_text s = true -> delimited rest ->
  span_number (s +:+ rest) = (s, rest).
Proof.
  intros Hs Hrest. induction s as [|c s IH].
  - rewrite append_nil. destruct rest as [|d r]; [reflexivity|].
    simpl in *. now rewrite Hrest.
  - simpl in Hs. apply andb_prop in Hs as [Hc Hs].
    rewrite append_cons. simpl. rewrite Hc, (IH Hs). reflexivity.
Qed.

Lemma uint_number_text (d : Decimal.uint) :
  number_text (NilEmpty.string_of_uint d) = true.
Proof. induction d; simpl; auto. Qed.

Lemma of_Z_number_text (n : Z) : number_text (of_Z n) = true.
Proof.
  unfold of_Z, NilZero.string_of_int, NilZero.string_of_uint.
  destruct (Z.to_int n) as [d|d]; destruct d; simpl;
    auto using uint_number_text.
Qed.

Lemma of_Z_parse (n : Z) : NilZero.int_of_string (of_Z n) = Some (Z.to_int n).
Proof.
  unfold of_Z. apply NilZero.isi; destruct n; simpl; try discriminate;
    intros [= Hnil]; now apply Unsigned.to_uint_nonnil in Hnil.
Qed.

Lemma of_Z_head (n : Z) :
  exists c r, of_Z n = String c r /\ is_number_char c = true.
Proof.
  pose proof (of_Z_number_text n) as Hn.
  pose proof (of_Z_parse n) as Hp.
  destruct (of_Z n) as [|c r]; [discriminate|].
  simpl in Hn. apply andb_prop in Hn as [Hc _]. eauto.
Qed.

Lemma parse_number_of_Z (n : Z) (rest : string) :
  delimited rest -> parse_number (of_Z n +:+ rest) = Some (JInt n, rest).
Proof.
  intros Hrest. unfold parse_number.
  rewrite (span_number_append _ _ (of_Z_number_text n) Hrest).
  rewrite of_Z_parse, DecimalZ.of_to, String.eqb_refl. reflexivity.
Qed.

(** *** White space *)

Lemma skip_ws_spaces (n : nat) (s : string) :
  skip_ws (spaces n +:+ s) = skip_ws s.
Proof. induction n as [|n IH]; [reflexivity|]. exact IH. Qed.

Lemma skip_ws_break (level : nat) (s : string) :
  skip_ws (break level +:+ s) = skip_ws s.
Proof. unfold break. rewrite append_cons. apply skip_ws_spaces. Qed.

Lemma skip_ws_head (c : ascii) (r : string) :
  is_ws c = false -> skip_ws (String c r) = String c r.
Proof. intros Hc. simpl. now rewrite Hc. Qed.

Lemma parse_value_skip (f : nat) (s : string) :
  parse_value (S f) s = parse_value (S f) (skip_ws s).
Proof.
  assert (Hidem : skip_ws (skip_ws s) = skip_ws s).
  { induction s as [|c r IH]; [reflexivity|].
    simpl. destruct (is_ws c) eqn:E; [exact IH|]. simpl. now rewrite E. }
  cbn [parse_value]. rewrite Hidem. reflexivity.
Qed.

Lemma parse_value_break (f level : nat) (s : string) :
  parse_value (S f) (break level +:+ s) = parse_value (S f) s.
Proof.
  rewrite parse_value_skip, skip_ws_break, <- parse_value_skip. reflexivity.
Qed.

(** *** Hashable values *)

Lemma number_char_plain (c : ascii) :
  is_number_char c = true ->
  is_ws c = false /\ Ascii.eqb c "]" = false /\ Ascii.eqb c dquote = false
  /\ Ascii.eqb c "[" = false /\ Ascii.eqb c "{" = false
  /\ Ascii.eqb c "n" = false /\ Ascii.eqb c "t" = false
  /\ Ascii.eqb c "f" = false.
Proof.
  destruct c as [[] [] [] [] [] [] [] []]; intros Hc;
    try discriminate Hc; repeat split; reflexivity.
Qed.

Lemma parse_value_number (f : nat) (c : ascii) (r : string) :
  is_number_char c = true ->
  parse_value (S f) (String c r) = parse_number (String c r).
Proof.
  intros Hc.
  destruct (number_char_plain c Hc) as (Hw & _ & Hq & Ha & Ho & Hn & Ht & Hf).
  cbn [parse_value skip_ws]. rewrite Hw, Hq, Ha, Ho, Hn, Ht, Hf. reflexivity.
Qed.

Lemma dumps_atom_level (j : nat) (a : atom) :
  dumps_at j (json_of_atom a) = dumps_at 0 (json_of_atom a).
Proof. destruct a; reflexivity. Qed.

Lemma parse_value_atom (a : atom) (j f : nat) (rest : string) :
  delimited rest ->
  parse_value (S f) (dumps_at j (json_of_atom a) +:+ rest)
  = Some (json_of_atom a, rest).
Proof.
  intros Hrest. destruct a as [|b|n|s].
  - reflexivity.
  - destruct b; reflexivity.
  - cbn [json_of_atom dumps_at].
    destruct (of_Z_head n) as (c & r & Hn & Hc).
    pose proof (parse_number_of_Z n rest Hrest) as Hp.
    rewrite Hn in *. rewrite append_cons in *.
    rewrite (parse_value_number f c _ Hc). exact Hp.
  - cbn [json_of_atom dumps_at]. rewrite quote_append.
    change (parse_value (S f) (String dquote ?r))
      with (match parse_chars r with
            | Some (t, rest') => Some (JStr t, rest')
            | None => None
            end).
    rewrite parse_chars_escape. reflexivity.
Qed.

(** The text of a hashable value starts with a character that is neither
    white space nor a closing bracket. *)
Lemma atom_head (a : atom) (j : nat) :
  exists c r, dumps_at j (json_of_atom a) = String c r
              /\ is_ws c = false /\ Ascii.eqb c "]" = false.
Proof.
  destruct a as [|b|n|s].
  - do 2 eexists; repeat split; reflexivity.
  - destruct b; do 2 eexists; repeat split; reflexivity.
  - destruct (of_Z_head n) as (c & r & Hn & Hc).
    destruct (number_char_plain c Hc) as (Hw & Hb & _).
    exists c, r. auto.
  - do 2 eexists; repeat split; reflexivity.
Qed.

(** *** The array of identifiers *)

Lemma join_cons2 (sep x y : string) (r : list string) :
  join sep (x :: y :: r) = x +:+ sep +:+ join sep (y :: r).
Proof. reflexivity. Qed.

Lemma parse_items_step (f : nat) (s : string) (v : json) (r : string) :
  parse_value f s = Some (v, r) ->
  parse_items (S f) s =
  match skip_ws r with
  | String ","%char r' =>
      match parse_items f r' with
      | Some (vs, rest) => Some (v :: vs, rest)
      | None => None
      end
  | String "]"%char rest => Some ([v], rest)
  | _ => None
  end.
Proof. intros Hv. cbn [parse_items]. rewrite Hv. reflexivity. Qed.

Lemma parse_items_atoms (l : list atom) (a : atom) (f : nat) (rest : string) :
  (length l < f)%nat ->
  parse_items (S f)
    (break 2 +:+ join ("," +:+ break 2)
                   (map (dumps_at 2) (map json_of_atom (a :: l)))
     +:+ break 1 +:+ "]" +:+ rest)
  = Some (map json_of_atom (a :: l), rest).
Proof.
  revert a f. induction l as [|b l IH]; intros a f Hf.
  - destruct f as [|f]; [simpl in Hf; lia|].
    cbn [map join].
    erewrite parse_items_step.
    2:{ rewrite parse_value_break. apply parse_value_atom. reflexivity. }
    rewrite skip_ws_break. reflexivity.
  - destruct f as [|f]; [simpl in Hf; lia|].
    cbn [map]. rewrite join_cons2, !append_assoc.
    erewrite parse_items_step.
    2:{ rewrite parse_value_break. apply parse_value_atom. reflexivity. }
    rewrite append_cons, append_nil.
    change (skip_ws (String "," ?x)) with (String ","%char x).
    cbn iota.
    specialize (IH b f ltac:(simpl in Hf; lia)). cbn [map] in IH.
    rewrite IH. reflexivity.
Qed.

Lemma join_length (sep x : string) (l : list string) :
  (1 <= String.length sep)%nat ->
  (length l <= String.length (join sep (x :: l)))%nat.
Proof.
  intros Hsep. revert x. induction l as [|y l IH]; intros x.
  - simpl. lia.
  - rewrite join_cons2, !length_append. specialize (IH y).
    cbn [length]. lia.
Qed.

(** *** The state payload *)

Lemma parse_members_single (f : nat) (key body : string) (v : json)
      (r3 rest : string) :
  parse_value f body = Some (v, r3) ->
  skip_ws r3 = String "}"%char rest ->
  parse_members (S f) (break 1 +:+ quote key +:+ ": " +:+ body)
  = Some ([(key, v)], rest).
Proof.
  intros Hv Hclose. cbn [parse_members].
  rewrite skip_ws_break, quote_append.
  rewrite skip_ws_head by reflexivity.
  change (Ascii.eqb dquote dquote) with true. cbn iota.
  rewrite parse_chars_escape.
  change (skip_ws (": " +:+ body)) with (String ":"%char (" " +:+ body)).
  cbn iota.
  destruct f as [|f]; [discriminate Hv|].
  replace (parse_value (S f) (" " +:+ body)) with (parse_value (S f) body).
  2:{ rewrite (parse_value_skip f (" " +:+ body)).
      change (skip_ws (" " +:+ body)) with (skip_ws body).
      now rewrite <- parse_value_skip. }
  rewrite Hv, Hclose. reflexivity.
Qed.

Lemma parse_value_ids (a : atom) (l : list atom) (f : nat) (rest : string) :
  (length l + 2 < f)%nat ->
  parse_value f (dumps_at 1 (JArr (map json_of_atom (a :: l))) +:+ rest)
  = Some (JArr (map json_of_atom (a :: l)), rest).
Proof.
  intros Hf. destruct f as [|f]; [lia|].
  cbn [map dumps_at]. rewrite !append_assoc, append_cons, append_nil.
  cbn [parse_value].
  rewrite skip_ws_head by reflexivity.
  change (Ascii.eqb "[" dquote) with false.
  change (Ascii.eqb "[" "[") with true. cbn iota.
  destruct (atom_head a 2) as (c & r & Ha & Hw & Hb).
  assert (Hhead : exists t, skip_ws (break 2 +:+
                    join ("," +:+ break 2)
                         (dumps_at 2 (json_of_atom a)
                          :: map (dumps_at 2) (map json_of_atom l))
                    +:+ break 1 +:+ "]" +:+ rest) = String c t).
  { rewrite skip_ws_break. destruct l as [|b l].
    - cbn [map join]. rewrite Ha, append_cons. rewrite skip_ws_head by exact Hw.
      eauto.
    - cbn [map]. rewrite join_cons2, Ha, !append_cons.
      rewrite skip_ws_head by exact Hw. eauto. }
  destruct Hhead as (t & Ht). rewrite Ht.
  destruct f as [|f]; [lia|].
  pose proof (parse_items_atoms l a f rest ltac:(lia)) as Hitems.
  cbn [map] in Hitems. rewrite Hitems.
  destruct c as [[] [] [] [] [] [] [] []]; try discriminate Hb; reflexivity.
Qed.

Lemma dumps_payload (ids : list atom) :
  dumps (state_payload ids)
  = "{" +:+ break 1 +:+ quote "processed_ids" +:+ ": "
    +:+ dumps_at 1 (JArr (map json_of_atom ids)) +:+ break 0 +:+ "}".
Proof.
  change (dumps (state_payload ids))
    with ("{" +:+ break 1
          +:+ (quote "processed_ids" +:+ ": "
               +:+ dumps_at 1 (JArr (map json_of_atom ids)))
          +:+ break 0 +:+ "}").
  rewrite !append_assoc. reflexivity.
Qed.

Lemma parse_value_payload (ids : list atom) (f : nat) :
  (length ids + 4 < f)%nat ->
  parse_value f (dumps (state_payload ids))
  = Some (state_payload ids, EmptyString).
Proof.
  intros Hf. destruct ids as [|a l].
  - do 5 (destruct f as [|f]; [simpl in Hf; lia|]). reflexivity.
  - destruct f as [|f]; [lia|].
    rewrite dumps_payload.
    rewrite append_cons, append_nil. cbn [parse_value].
    rewrite skip_ws_head by reflexivity.
    change (Ascii.eqb "{" dquote) with false.
    change (Ascii.eqb "{" "[") with false.
    change (Ascii.eqb "{" "{") with true. cbn iota.
    destruct f as [|f]; [simpl in Hf; lia|].
    rewrite (parse_members_single f "processed_ids" _
               (JArr (map json_of_atom (a :: l))) (break 0 +:+ "}") EmptyString).
    + rewrite skip_ws_break, quote_append. reflexivity.
    + apply parse_value_ids. simpl in Hf |- *. lia.
    + reflexivity.
Qed.

Lemma payload_length (ids : list atom) :
  (length ids + 4 <= String.length (dumps (state_payload ids)))%nat.
Proof.
  destruct ids as [|a l]; [simpl; lia|].
  rewrite dumps_payload. cbn [dumps_at map].
  rewrite !length_append.
  pose proof (join_length ("," +:+ break 2) (dumps_at 2 (json_of_atom a))
                (map (dumps_at 2) (map json_of_atom l))
                ltac:(simpl; lia)) as Hj.
  rewrite !length_map in Hj.
  set (n := String.length (join _ _)) in *. simpl. lia.
Qed.

(** The reference codec keeps the contract [json_roundtrip]. *)
Lemma loads_dumps_payload (ids : list atom) :
  loads (dumps (state_payload ids)) = Some (state_payload ids).
Proof.
  unfold loads. rewrite parse_value_payload; [reflexivity|].
  pose proof (payload_length ids). lia.
Qed.
End RefJsonFacts.

Lemma table_platform_roundtrip (respond : list string -> result CompletedProcess) :
  @json_roundtrip (table_platform respond).
Proof. intros ids. apply RefJsonFacts.loads_dumps_payload. Qed.

(** ** State store *)

Section StateStore.
Context `{Platform}.

Lemma load_state_absent (w : World) :
  state_file w = Missing -> load_state w = (Ok ∅, w).
Proof.
  intros Hf. unfold load_state, bind, state_path_exists. rewrite Hf. reflexivity.
Qed.

Lemma load_state_present (w : World) (text : string) :
  state_file w = Holds text ->
  load_state w = (match parse_state text with
                  | Ok s => Ok s
                  | Raise _ => Ok ∅
                  end, w).
Proof.
  intros Hf. unfold load_state, bind at 1, state_path_exists. rewrite Hf.
  cbn [negb]. unfold try_except, bind, read_state_file. rewrite Hf.
  unfold lift, ret. destruct (parse_state text); reflexivity.
Qed.

(** A file that cannot be read is taken for an empty state: the read is
    inside the [try]. *)
Lemma load_state_unreadable (w : World) (e : exn) :
  state_file w = Unreadable e -> load_state w = (Ok ∅, w).
Proof.
  intros Hf. unfold load_state, bind at 1, state_path_exists. rewrite Hf.
  cbn [negb]. unfold try_except, bind, read_state_file. rewrite Hf.
  reflexivity.
Qed.

(** The existence check is outside the [try]: what it raises leaves
    [load_state]. *)
Lemma load_state_unprobeable (w : World) (msg : string) :
  state_file w = Unprobeable msg -> load_state w = (Raise (OSError msg), w).
Proof.
  intros Hf. unfold load_state, bind, state_path_exists. rewrite Hf. reflexivity.
Qed.

(** [load_state] leaves the world as it is. *)
Lemma load_state_world (w : World) : snd (load_state w) = w.
Proof.
  destruct (state_file w) as [|text|e|msg] eqn:E.
  - now rewrite (load_state_absent w E).
  - now rewrite (load_state_present w text E).
  - now rewrite (load_state_unreadable w e E).
  - now rewrite (load_state_unprobeable w msg E).
Qed.

(** What [load_state] returns is a function of the state file alone. *)
Lemma load_state_file (w w' : World) :
  state_file w = state_file w' -> fst (load_state w) = fst (load_state w').
Proof.
  intros Hf. destruct (state_file w) as [|text|e|msg] eqn:E; symmetry in Hf.
  - now rewrite (load_state_absent w E), (load_state_absent w' Hf).
  - now rewrite (load_state_present w text E), (load_state_present w' text Hf).
  - now rewrite (load_state_unreadable w e E), (load_state_unreadable w' e Hf).
  - now rewrite (load_state_unprobeable w msg E), (load_state_unprobeable w' msg Hf).
Qed.

(** What [load_state] returned, it returns again as long as the state file
    is not written. *)
Lemma load_state_again (w w' : World) (p : pyset) :
  state_file w' = state_file w ->
  load_state w = (Ok p, w) -> load_state w' = (Ok p, w').
Proof.
  intros Hf Hload.
  pose proof (load_state_file w w' ltac:(now symmetry)) as Hsame.
  rewrite Hload in Hsame. cbn [fst] in Hsame.
  rewrite (surjective_pairing (load_state w')), <- Hsame, load_state_world.
  reflexivity.
Qed.

(** [load_state] raises only what the existence check raises. *)
Lemma load_state_total (w : World) :
  (forall msg, state_file w <> Unprobeable msg) ->
  exists s, load_state w = (Ok s, w).
Proof.
  intros Hprobe. destruct (state_file w) as [|text|e|msg] eqn:E.
  - rewrite (load_state_absent w E). eauto.
  - rewrite (load_state_present w text E).
    destruct (parse_state text); eauto.
  - rewrite (load_state_unreadable w e E). eauto.
  - now destruct (Hprobe msg).
Qed.

(** The two outcomes of [load_state]. *)
Lemma load_state_cases (w : World) :
  (exists p0, load_state w = (Ok p0, w))
  \/ (exists msg, state_file w = Unprobeable msg
                  /\ load_state w = (Raise (OSError msg), w)).
Proof.
  destruct (state_file w) as [|text|e|msg] eqn:E.
  - left. rewrite (load_state_absent w E). eauto.
  - left. rewrite (load_state_present w text E).
    destruct (parse_state text); eauto.
  - left. rewrite (load_state_unreadable w e E). eauto.
  - right. exists msg. split; [reflexivity|apply (load_state_unprobeable w msg E)].
Qed.

(** C5: [load_state] lets an exception escape. The existence check of the
    state path is outside the [try]: when that check raises, for a path
    that cannot be probed, [load_state] raises the same [OSError]. That is
    the only way: with a state path that can be probed, [load_state]
    returns, and it returns the empty set when the file is absent, when its
    text does not parse, and when the file cannot be read. *)
Theorem load_state_outcomes (w : World) :
  (forall msg, state_file w = Unprobeable msg ->
               load_state w = (Raise (OSError msg), w))
  /\ ((forall msg, state_file w <> Unprobeable msg) ->
      exists s, load_state w = (Ok s, w))
  /\ (state_file w = Missing -> load_state w = (Ok ∅, w))
  /\ (forall text, state_file w = Holds text -> json_loads text = None ->
      load_state w = (Ok ∅, w))
  /\ (forall e, state_file w = Unreadable e -> load_state w = (Ok ∅, w)).
Proof.
  split; [|split; [|split; [|split]]].
  - apply load_state_unprobeable.
  - apply load_state_total.
  - apply load_state_absent.
  - intros text Hf Hbad. rewrite (load_state_present w text Hf).
    unfold parse_state. rewrite Hbad. reflexivity.
  - apply load_state_unreadable.
Qed.

Lemma parse_state_payload (ids : list atom) :
  json_roundtrip ->
  parse_state (json_dumps (state_payload ids)) = Ok (py_set ids).
Proof.
  intros Hrt. unfold parse_state. rewrite Hrt.
  unfold state_payload, py_get, dict_get. simpl.
  rewrite hashable_json_of_atom. reflexivity.
Qed.

Lemma save_state_sorted (p : pyset) (ids : list atom) (w : World) :
  py_sorted p = Ok ids ->
  save_state p w =
  (Ok tt, {| state_file := Holds (json_dumps (state_payload ids));
             mailgoat := mailgoat w;
             trace := (trace w ++ [WriteState (json_dumps (state_payload ids))])%list |}).
Proof.
  intros Hs. unfold save_state, bind, make_state_dir, ret, lift.
  rewrite Hs. reflexivity.
Qed.

Lemma save_state_unsortable (p : pyset) (e : exn) (w : World) :
  py_sorted p = Raise e -> save_state p w = (Raise e, w).
Proof.
  intros Hs. unfold save_state, bind, make_state_dir, ret, lift.
  rewrite Hs. reflexivity.
Qed.

Lemma py_sorted_str_set (ids : gset string) :
  py_sorted (str_set ids) = Ok (merge_sort atom_le (elements (str_set ids))).
Proof.
  unfold py_sorted.
  rewrite (all_comparable_strings _ (str_set_elements_strings ids)).
  reflexivity.
Qed.


End StateStore.

(** The name of the state file is too long for the file system: the
    existence check raises, and so does [load_state]. With no state file,
    with a text that does not parse and with a file that may not be read,
    it returns the empty set. *)
Lemma load_state_outcomes_witness :
  load_state (Demo.blocked Demo.Healthy)
  = (Raise (OSError "File name too long"), Demo.blocked Demo.Healthy)
  /\ load_state (Demo.fresh Demo.Healthy) = (Ok ∅, Demo.fresh Demo.Healthy)
  /\ RefJson.loads "{oops" = None
  /\ load_state (Demo.with_file Demo.Healthy "{oops")
     = (Ok ∅, Demo.with_file Demo.Healthy "{oops")
  /\ load_state (Demo.locked Demo.Healthy) = (Ok ∅, Demo.locked Demo.Healthy).
Proof.
  pose proof (load_state_outcomes (Demo.blocked Demo.Healthy)) as (Hraise & _).
  pose proof (load_state_outcomes (Demo.fresh Demo.Healthy))
    as (_ & _ & Habsent & _).
  pose proof (load_state_outcomes (Demo.with_file Demo.Healthy "{oops"))
    as (_ & _ & _ & Hcorrupt & _).
  pose proof (load_state_outcomes (Demo.locked Demo.Healthy))
    as (_ & _ & _ & _ & Hlocked).
  split; [apply (Hraise "File name too long"); reflexivity|].
  split; [apply Habsent; reflexivity|].
  split; [reflexivity|].
  split; [apply (Hcorrupt "{oops"); reflexivity|].
  apply (Hlocked (OSError "Permission denied")). reflexivity.
Defined.


(** ** Processing cycle *)

Section Cycle.
Context `{Platform}.
Variable cfg : Config.

Lemma unsaved_refl (w : World) : unsaved w w.
Proof. split; [reflexivity|]. exists []. now rewrite app_nil_r. Qed.

Lemma unsaved_trans (w1 w2 w3 : World) :
  unsaved w1 w2 -> unsaved w2 w3 -> unsaved w1 w3.
Proof.
  intros (Hf1 & e1 & Ht1 & Hq1) (Hf2 & e2 & Ht2 & Hq2).
  split; [congruence|]. exists (e1 ++ e2)%list. split.
  - rewrite Ht2, Ht1. now rewrite app_assoc.
  - rewrite forallb_app, Hq1, Hq2. reflexivity.
Qed.

Lemma run_mailgoat_unsaved (args : list string) (w w' : World) (r : result json) :
  run_mailgoat args w = (r, w') -> unsaved w w'.
Proof.
  unfold run_mailgoat, bind, run_subprocess, lift.
  destruct (subprocess_run _ _) as [[proc|e] g]; intros [= <- <-];
    (split; [reflexivity|]; eexists; split; reflexivity).
Qed.

Lemma print_unsaved (line : string) (w : World) :
  unsaved w (snd (print line w)).
Proof. split; [reflexivity|]. eexists; split; reflexivity. Qed.

(** What one turn of the loop does to [processed] and to the world. *)
Lemma process_entry_step (entry : json) (p p' : pyset) (w w' : World)
      (r : result unit) :
  process_entry cfg entry (p, w) = (r, (p', w')) ->
  unsaved w w' /\ grows_by_one p p'.
Proof.
  unfold process_entry, bind, lift, get_processed, in_world, add_processed, ret.
  destruct (py_get entry "id" (JStr EmptyString)) as [id_field|e]; simpl;
    [|intros [= <- <- <-]; split; [apply unsaved_refl|now left]].
  set (msg_id := PyStr.strip (py_str id_field)).
  destruct (negb (PyStr.truthy msg_id) || py_in (AStr msg_id) p) eqn:Hskip;
    [intros [= <- <- <-]; split; [apply unsaved_refl|now left]|].
  apply orb_false_elim in Hskip as [_ Hnew]. apply py_in_str_false in Hnew.
  cbn [fst snd].
  destruct (run_mailgoat ["read"; msg_id] w) as [[details|e] w1] eqn:Hread;
    simpl; pose proof (run_mailgoat_unsaved _ _ _ _ Hread) as Hq1;
    [|intros [= <- <- <-]; split; [exact Hq1|now left]].
  destruct (py_get details "from" (JStr EmptyString)) as [from_field|e]; simpl;
    [|intros [= <- <- <-]; split; [exact Hq1|now left]].
  destruct (py_get details "subject" (JStr EmptyString)) as [subject_field|e];
    simpl; [|intros [= <- <- <-]; split; [exact Hq1|now left]].
  destruct (negb (PyStr.truthy (PyStr.strip (py_str from_field)))).
  { intros [= <- <- <-]. split; [exact Hq1|].
    right. exists msg_id. split; [exact Hnew|apply py_add_str]. }
  cbn [fst snd].
  destruct (run_mailgoat (send_args cfg _ _) w1) as [[sent|e] w2] eqn:Hsend;
    simpl; pose proof (run_mailgoat_unsaved _ _ _ _ Hsend) as Hq2;
    [|intros [= <- <- <-]; split; [exact (unsaved_trans _ _ _ Hq1 Hq2)|now left]].
  intros [= <- <- <-]. split.
  - apply (unsaved_trans _ _ _ (unsaved_trans _ _ _ Hq1 Hq2)).
    apply print_unsaved.
  - right. exists msg_id. split; [exact Hnew|apply py_add_str].
Qed.

Lemma process_entries_cons (entry : json) (rest : list json) (pw : pyset * World) :
  process_entries cfg (entry :: rest) pw =
  match process_entry cfg entry pw with
  | (Ok _, pw') => process_entries cfg rest pw'
  | (Raise e, pw') => (Raise e, pw')
  end.
Proof. reflexivity. Qed.

Lemma process_entries_app (pre post : list json) (pw : pyset * World) :
  process_entries cfg (pre ++ post) pw =
  match process_entries cfg pre pw with
  | (Ok _, pw') => process_entries cfg post pw'
  | (Raise e, pw') => (Raise e, pw')
  end.
Proof.
  revert pw. induction pre as [|entry pre IH]; intros pw; [reflexivity|].
  rewrite <- app_comm_cons, !process_entries_cons.
  destruct (process_entry cfg entry pw) as [[[]|e] pw']; [apply IH|reflexivity].
Qed.

Lemma grows_by_one_subseteq (p p' : pyset) : grows_by_one p p' -> p ⊆ p'.
Proof. intros [->|(msg_id & _ & ->)]; set_solver. Qed.

(** The loop never writes the state file and never shrinks [processed]. *)
Lemma process_entries_steps (entries : list json) (p p' : pyset) (w w' : World)
      (r : result unit) :
  process_entries cfg entries (p, w) = (r, (p', w')) ->
  unsaved w w' /\ p ⊆ p'.
Proof.
  revert p w. induction entries as [|entry rest IH]; intros p w.
  - intros [= <- <- <-]. split; [apply unsaved_refl|reflexivity].
  - rewrite process_entries_cons.
    destruct (process_entry cfg entry (p, w)) as [[[]|e] [p1 w1]] eqn:Hstep;
      apply process_entry_step in Hstep as [Hq Hg];
      apply grows_by_one_subseteq in Hg.
    + intros Hrest. apply IH in Hrest as [Hq' Hg'].
      split; [exact (unsaved_trans _ _ _ Hq Hq')|set_solver].
    + intros [= <- <- <-]. auto.
Qed.

(** A cycle whose state path cannot be probed raises at once. *)
Lemma process_messages_unloaded (w : World) (msg : string) :
  state_file w = Unprobeable msg ->
  process_messages cfg w = (Raise (OSError msg), w).
Proof.
  intros Hf. unfold process_messages, bind at 1.
  rewrite (load_state_unprobeable w msg Hf). reflexivity.
Qed.

(** [process_messages], once the listing is an array. *)
Lemma process_messages_listing (w w1 : World) (p0 : pyset) (entries : list json) :
  load_state w = (Ok p0, w) ->
  run_mailgoat inbox_list_args w = (Ok (JArr entries), w1) ->
  process_messages cfg w =
  match process_entries cfg entries (p0, w1) with
  | (Ok _, (p1, w2)) => save_state p1 w2
  | (Raise e, (_, w2)) => (Raise e, w2)
  end.
Proof.
  intros Hload Hlist. unfold process_messages, bind at 1. rewrite Hload.
  unfold bind at 1. rewrite Hlist. unfold bind, with_processed.
  destruct (process_entries cfg entries (p0, w1)) as [[[]|e] [p1 w2]]; reflexivity.
Qed.

(** C9: the set of processed identifiers only grows. Each turn of the
    loop leaves it as it is or adds one identifier, and on a cycle whose
    loop completes, the set handed to [save_state] includes the set that
    [load_state] returned. *)
Theorem processed_only_grows :
  (forall entry p w,
      grows_by_one p (fst (snd (process_entry cfg entry (p, w)))))
  /\ (forall w p0 entries w1 p1 w2,
        load_state w = (Ok p0, w) ->
        run_mailgoat inbox_list_args w = (Ok (JArr entries), w1) ->
        process_entries cfg entries (p0, w1) = (Ok tt, (p1, w2)) ->
        process_messages cfg w = save_state p1 w2 /\ p0 ⊆ p1).
Proof.
  split.
  - intros entry p w.
    destruct (process_entry cfg entry (p, w)) as [r [p' w']] eqn:Hstep.
    apply process_entry_step in Hstep as [_ Hg]. exact Hg.
  - intros w p0 entries w1 p1 w2 Hload Hlist Hloop. split.
    + rewrite (process_messages_listing _ _ _ _ Hload Hlist), Hloop. reflexivity.
    + apply process_entries_steps in Hloop as [_ Hsub]. exact Hsub.
Qed.

(** A cycle whose loop raises: the exception leaves the cycle, and the
    state file is as it was. *)
Lemma cycle_raises_unsaved (w w1 w2 : World) (p0 p1 : pyset)
      (entries : list json) (e : exn) :
  load_state w = (Ok p0, w) ->
  run_mailgoat inbox_list_args w = (Ok (JArr entries), w1) ->
  process_entries cfg entries (p0, w1) = (Raise e, (p1, w2)) ->
  process_messages cfg w = (Raise e, w2)
  /\ unsaved w w2
  /\ load_state w2 = (Ok p0, w2).
Proof.
  intros Hload Hlist Hloop.
  pose proof (run_mailgoat_unsaved _ _ _ _ Hlist) as Hq1.
  pose proof (process_entries_steps _ _ _ _ _ _ Hloop) as [Hq2 _].
  pose proof (unsaved_trans _ _ _ Hq1 Hq2) as Hq.
  split; [|split; [exact Hq|]].
  - rewrite (process_messages_listing _ _ _ _ Hload Hlist), Hloop. reflexivity.
  - exact (load_state_again w w2 p0 (proj1 Hq) Hload).
Qed.

(** C1: when the loop over the entries raises, the cycle raises the same
    exception without calling [save_state]: the state file and what
    [load_state] reads from it are as before the cycle, and no identifier
    that the pass added in memory is in the persisted set. *)
Theorem no_partial_save (w w1 w2 : World) (p0 p1 : pyset)
        (entries : list json) (e : exn) :
  load_state w = (Ok p0, w) ->
  run_mailgoat inbox_list_args w = (Ok (JArr entries), w1) ->
  process_entries cfg entries (p0, w1) = (Raise e, (p1, w2)) ->
  process_messages cfg w = (Raise e, w2)
  /\ unsaved w w2
  /\ load_state w2 = (Ok p0, w2)
  /\ p0 ⊆ p1
  /\ (forall a, a ∈ p1 -> a ∉ p0 ->
      forall p, load_state w2 = (Ok p, w2) -> a ∉ p).
Proof.
  intros Hload Hlist Hloop.
  destruct (cycle_raises_unsaved _ _ _ _ _ _ _ Hload Hlist Hloop)
    as (Hcycle & Hq & Hload2).
  pose proof (process_entries_steps _ _ _ _ _ _ Hloop) as [_ Hsub].
  split; [exact Hcycle|].
  split; [exact Hq|split; [exact Hload2|split; [exact Hsub|]]].
  intros a _ Hnot p Hp. rewrite Hload2 in Hp. congruence.
Qed.

Lemma process_messages_bad_listing (w w1 : World) (p0 : pyset) (v : json) :
  load_state w = (Ok p0, w) ->
  run_mailgoat inbox_list_args w = (Ok v, w1) ->
  (forall entries, v <> JArr entries) ->
  process_messages cfg w
  = print_err "Unexpected inbox payload, expected JSON array" w1.
Proof.
  intros Hload Hlist Hshape.
  unfold process_messages, bind at 1. rewrite Hload.
  unfold bind at 1. rewrite Hlist.
  destruct v; try reflexivity. now destruct (Hshape items).
Qed.

(** C4: a listing that is not an array ends the cycle at once, without
    an exception: once [load_state] has returned and the listing has given
    such a result, the only command run is the listing, one line goes to
    the error stream, and the state file is not written. *)
Theorem bad_listing_ends_cycle (w w1 : World) (p0 : pyset) (v : json) :
  load_state w = (Ok p0, w) ->
  run_mailgoat inbox_list_args w = (Ok v, w1) ->
  (forall entries, v <> JArr entries) ->
  exists w',
    process_messages cfg w = (Ok tt, w')
    /\ state_file w' = state_file w
    /\ trace w' =
       (trace w ++ [ Exec (["mailgoat"] ++ inbox_list_args ++ ["--json"]);
                     Stderr "Unexpected inbox payload, expected JSON array" ])%list.
Proof.
  intros Hload Hlist Hshape.
  assert (Hw1 : state_file w1 = state_file w
                /\ trace w1 = (trace w ++ [Exec (["mailgoat"] ++ inbox_list_args
                                                  ++ ["--json"])])%list).
  { revert Hlist. unfold run_mailgoat, bind, run_subprocess, lift.
    destruct (subprocess_run _ _) as [[proc|e] g]; intros [= _ <-]; auto. }
  destruct Hw1 as [Hf Ht].
  eexists. split; [|split].
  - rewrite (process_messages_bad_listing _ _ _ _ Hload Hlist Hshape).
    reflexivity.
  - simpl. exact Hf.
  - simpl. rewrite Ht, <- app_assoc. reflexivity.
Qed.

(** A turn of the loop on an entry that is not a dict raises. *)
Lemma process_entry_not_dict (entry : json) (pw : pyset * World) :
  entry_id entry = None ->
  process_entry cfg entry pw = (Raise AttributeError, pw).
Proof.
  intros Hid. unfold process_entry, bind, lift.
  destruct entry; try discriminate Hid; reflexivity.
Qed.

(** A turn of the loop on an entry without identifier, or with an
    identifier that is in [processed], does nothing. *)
Lemma process_entry_skip (entry : json) (msg_id : string) (p : pyset) (w : World) :
  entry_id entry = Some msg_id ->
  msg_id = EmptyString \/ AStr msg_id ∈ p ->
  process_entry cfg entry (p, w) = (Ok tt, (p, w)).
Proof.
  intros Hid Hskip. destruct entry; try discriminate Hid.
  injection Hid as Hid.
  unfold process_entry, bind, lift, get_processed, ret, py_get.
  cbn [fst snd]. rewrite Hid.
  destruct Hskip as [->|Hin]; [reflexivity|].
  apply py_in_str in Hin. rewrite Hin, orb_true_r. reflexivity.
Qed.

(** A turn of the loop on an unseen entry starts by reading the message. *)
Lemma process_entry_unseen (entry : json) (msg_id : string) (p : pyset) (w : World) :
  entry_id entry = Some msg_id ->
  msg_id <> EmptyString -> AStr msg_id ∉ p ->
  process_entry cfg entry (p, w) =
  match run_mailgoat ["read"; msg_id] w with
  | (Raise e, w1) => (Raise e, (p, w1))
  | (Ok details, w1) =>
      match py_get details "from" (JStr EmptyString),
            py_get details "subject" (JStr EmptyString) with
      | Ok from_field, Ok subject_field =>
          let sender := PyStr.strip (py_str from_field) in
          let subject := PyStr.strip (py_str subject_field) in
          if negb (PyStr.truthy sender)
          then (Ok tt, (py_add (AStr msg_id) p, w1))
          else
            match run_mailgoat (send_args cfg sender subject) w1 with
            | (Raise e, w2) => (Raise e, (p, w2))
            | (Ok _, w2) =>
                (Ok tt, (py_add (AStr msg_id) p,
                         snd (print ("Replied to " +:+ sender
                                     +:+ " for message " +:+ msg_id) w2)))
            end
      | Raise e, _ | _, Raise e => (Raise e, (p, w1))
      end
  end.
Proof.
  intros Hid Hne Hnew. destruct entry; try discriminate Hid.
  injection Hid as Hid.
  unfold process_entry, bind, lift, get_processed, in_world, add_processed,
    ret, py_get at 1.
  cbn [fst snd]. rewrite Hid.
  apply py_in_str_false in Hnew. rewrite Hnew.
  destruct msg_id as [|c r]; [congruence|].
  cbn [PyStr.truthy negb orb fst snd].
  destruct (run_mailgoat _ w) as [[details|e] w1]; [|reflexivity].
  destruct (py_get details "from" _) as [from_field|e]; [|reflexivity].
  destruct (py_get details "subject" _) as [subject_field|e]; [|reflexivity].
  destruct (negb _); [reflexivity|]. cbn [fst snd].
  destruct (run_mailgoat _ w1) as [[sent|e] w2]; reflexivity.
Qed.

(** C10: when reading an unseen entry succeeds without output, the result
    is [None] and the turn raises on its first use: the entry is not marked
    processed, the rest of the pass is not run, and the cycle ends with the
    exception and without writing the state file. *)
Theorem empty_read_aborts (w w1 w2 : World) (p0 p : pyset)
        (pre post : list json) (entry : json) (msg_id : string)
        (proc : CompletedProcess) (g : gateway) :
  load_state w = (Ok p0, w) ->
  run_mailgoat inbox_list_args w = (Ok (JArr (pre ++ entry :: post)), w1) ->
  process_entries cfg pre (p0, w1) = (Ok tt, (p, w2)) ->
  entry_id entry = Some msg_id ->
  msg_id <> EmptyString -> AStr msg_id ∉ p ->
  subprocess_run ["mailgoat"; "read"; msg_id; "--json"] (mailgoat w2) = (Ok proc, g) ->
  returncode proc = 0 -> PyStr.strip (stdout proc) = EmptyString ->
  exists w3,
    run_mailgoat ["read"; msg_id] w2 = (Ok JNull, w3)
    /\ process_entry cfg entry (p, w2) = (Raise AttributeError, (p, w3))
    /\ process_entries cfg (pre ++ entry :: post) (p0, w1)
       = (Raise AttributeError, (p, w3))
    /\ process_messages cfg w = (Raise AttributeError, w3)
    /\ unsaved w w3
    /\ trace w3 = (trace w2 ++ [Exec ["mailgoat"; "read"; msg_id; "--json"]])%list.
Proof.
  intros Hload Hlist Hpre Hid Hne Hnew Hrun Hzero Hout.
  pose proof (run_mailgoat_completed ["read"; msg_id] w2 proc g Hrun) as Hread.
  assert (Hnone : completed proc = Ok JNull).
  { unfold completed. rewrite Hzero, Hout. reflexivity. }
  rewrite Hnone in Hread.
  assert (Hentry : process_entry cfg entry (p, w2)
                   = (Raise AttributeError, (p, snd (run_mailgoat ["read"; msg_id] w2)))).
  { rewrite (process_entry_unseen _ _ _ _ Hid Hne Hnew), Hread. reflexivity. }
  assert (Hloop : process_entries cfg (pre ++ entry :: post) (p0, w1)
                  = (Raise AttributeError, (p, snd (run_mailgoat ["read"; msg_id] w2)))).
  { rewrite process_entries_app, Hpre, process_entries_cons, Hentry. reflexivity. }
  destruct (cycle_raises_unsaved _ _ _ _ _ _ _ Hload Hlist Hloop) as (Hcycle & Hq & _).
  rewrite Hread in *. eexists. repeat split; eauto; apply Hq.
Qed.

Lemma run_mailgoat_world (args : list string) (w w' : World) (r : result json) :
  run_mailgoat args w = (r, w') ->
  state_file w' = state_file w
  /\ trace w' = (trace w ++ [Exec (["mailgoat"] ++ args ++ ["--json"])])%list.
Proof.
  unfold run_mailgoat, bind, run_subprocess, lift.
  destruct (subprocess_run _ _) as [[proc|e] g]; intros [= _ <-]; auto.
Qed.

(** After a turn that did not raise, the entry has an identifier, and
    that is empty or in [processed]. *)
Lemma process_entry_ok_seen (entry : json) (p p' : pyset) (w w' : World) :
  process_entry cfg entry (p, w) = (Ok tt, (p', w')) ->
  exists msg_id, entry_id entry = Some msg_id
                 /\ (msg_id = EmptyString \/ AStr msg_id ∈ p').
Proof.
  intros Hstep.
  destruct (entry_id entry) as [msg_id|] eqn:Hid;
    [|rewrite (process_entry_not_dict _ _ Hid) in Hstep; discriminate].
  exists msg_id. split; [reflexivity|].
  destruct (decide (msg_id = EmptyString)) as [|Hne]; [now left|right].
  destruct (decide (AStr msg_id ∈ p)) as [Hin|Hnew].
  { pose proof (process_entry_step _ _ _ _ _ _ Hstep) as [_ Hg].
    apply grows_by_one_subseteq in Hg. set_solver. }
  rewrite (process_entry_unseen _ _ _ _ Hid Hne Hnew) in Hstep.
  destruct (run_mailgoat _ w) as [[details|e] w1]; [|discriminate].
  destruct (py_get details "from" _) as [from_field|e]; [|discriminate].
  destruct (py_get details "subject" _) as [subject_field|e]; [|discriminate].
  cbn zeta in Hstep. destruct (negb _).
  - injection Hstep as <- _. rewrite py_add_str. set_solver.
  - destruct (run_mailgoat _ w1) as [[sent|e] w2]; [|discriminate].
    injection Hstep as <- _. rewrite py_add_str. set_solver.
Qed.

Lemma process_entries_ok_seen (entries : list json) (p p' : pyset) (w w' : World) :
  process_entries cfg entries (p, w) = (Ok tt, (p', w')) ->
  forall entry, entry ∈ entries ->
    exists msg_id, entry_id entry = Some msg_id
                   /\ (msg_id = EmptyString \/ AStr msg_id ∈ p').
Proof.
  revert p w. induction entries as [|first rest IH]; intros p w Hloop entry Hin.
  - inversion Hin.
  - rewrite process_entries_cons in Hloop.
    destruct (process_entry cfg first (p, w)) as [[[]|e] [p1 w1]] eqn:Hstep;
      [|discriminate].
    apply elem_of_cons in Hin as [->|Hin]; [|exact (IH _ _ Hloop _ Hin)].
    destruct (process_entry_ok_seen _ _ _ _ _ Hstep) as (msg_id & Hid & Hseen).
    apply process_entries_steps in Hloop as [_ Hsub].
    exists msg_id. split; [exact Hid|]. destruct Hseen; [now left|right; set_solver].
Qed.




End Cycle.

(** ** Poll scheduler *)

Section Scheduler.
Context `{Platform}.
Variable cfg : Config.








End Scheduler.

(** ** The theorems on the runs of [Demo] *)

Lemma outcome_eta {A S : Type} (x : result A * S) (r : result A) :
  fst x = r -> x = (r, snd x).
Proof. destruct x as [r' s]. simpl. now intros ->. Qed.

Lemma loop_outcome_eta {A P W : Type} (x : result A * (P * W)) (r : result A) :
  fst x = r -> x = (r, (fst (snd x), snd (snd x))).
Proof. destruct x as [r' [p w]]. simpl. now intros ->. Qed.

(** The reply to the second of three unseen entries fails: [m1] is in memory,
    the cycle raises, and no state file is written. *)
Lemma no_partial_save_witness :
  fst (Demo.pass Demo.SendFails) = Raise (RuntimeError "smtp down")
  /\ AStr "m1" ∈ fst (snd (Demo.pass Demo.SendFails))
  /\ process_messages default_config (Demo.fresh Demo.SendFails)
     = (Raise (RuntimeError "smtp down"), snd (snd (Demo.pass Demo.SendFails)))
  /\ state_file (snd (snd (Demo.pass Demo.SendFails))) = Missing
  /\ load_state (snd (snd (Demo.pass Demo.SendFails)))
     = (Ok ∅, snd (snd (Demo.pass Demo.SendFails))).
Proof.
  assert (Hlist : run_mailgoat inbox_list_args (Demo.fresh Demo.SendFails)
                  = (Ok (JArr Demo.inbox), Demo.listed Demo.SendFails))
    by (unfold Demo.listed; apply outcome_eta; vm_compute; reflexivity).
  assert (Hloop : process_entries default_config Demo.inbox
                    (∅, Demo.listed Demo.SendFails)
                  = (Raise (RuntimeError "smtp down"),
                     (fst (snd (Demo.pass Demo.SendFails)),
                      snd (snd (Demo.pass Demo.SendFails)))))
    by (unfold Demo.pass; apply loop_outcome_eta; vm_compute; reflexivity).
  destruct (@no_partial_save (Demo.platform Demo.SendFails) default_config
              (Demo.fresh Demo.SendFails) (Demo.listed Demo.SendFails)
              _ ∅ _ Demo.inbox _ eq_refl Hlist Hloop)
    as (Hcycle & [Hfile _] & Hload2 & _).
  split; [vm_compute; reflexivity|].
  split; [vm_compute; reflexivity|].
  split; [exact Hcycle|]. split; [exact Hfile|exact Hload2].
Defined.


(** The listing is a dict: the cycle ends after one line on the error
    stream. *)
Lemma bad_listing_ends_cycle_witness :
  fst (run_mailgoat inbox_list_args (Demo.fresh Demo.BadListing)) = Ok (JObj [])
  /\ exists w',
      process_messages default_config (Demo.fresh Demo.BadListing) = (Ok tt, w')
      /\ state_file w' = Missing
      /\ trace w' =
         [ Exec ["mailgoat"; "inbox"; "list"; "--limit"; "50"; "--json"];
           Stderr "Unexpected inbox payload, expected JSON array" ].
Proof.
  assert (Hfst : fst (run_mailgoat inbox_list_args (Demo.fresh Demo.BadListing))
                 = Ok (JObj [])) by (vm_compute; reflexivity).
  split; [exact Hfst|].
  apply (@bad_listing_ends_cycle (Demo.platform Demo.BadListing) default_config
           (Demo.fresh Demo.BadListing) (Demo.listed Demo.BadListing) ∅ (JObj [])).
  - reflexivity.
  - unfold Demo.listed. apply outcome_eta. exact Hfst.
  - discriminate.
Defined.

(** On the healthy run the loop adds the three identifiers to the empty
    set, and that set is what the cycle saves. *)
Lemma processed_only_grows_witness :
  fst (Demo.pass Demo.Healthy) = Ok tt
  /\ process_messages default_config (Demo.fresh Demo.Healthy)
     = save_state (fst (snd (Demo.pass Demo.Healthy)))
                  (snd (snd (Demo.pass Demo.Healthy)))
  /\ ∅ ⊆ fst (snd (Demo.pass Demo.Healthy))
  /\ AStr "m3" ∈ fst (snd (Demo.pass Demo.Healthy)).
Proof.
  assert (Hfst : fst (Demo.pass Demo.Healthy) = Ok tt) by (vm_compute; reflexivity).
  split; [exact Hfst|].
  destruct (proj2 (@processed_only_grows (Demo.platform Demo.Healthy) default_config)
              (Demo.fresh Demo.Healthy) ∅ Demo.inbox (Demo.listed Demo.Healthy)
              (fst (snd (Demo.pass Demo.Healthy)))
              (snd (snd (Demo.pass Demo.Healthy)))) as [Hsave Hsub].
  - reflexivity.
  - unfold Demo.listed. apply outcome_eta. vm_compute. reflexivity.
  - unfold Demo.pass in *. apply loop_outcome_eta. exact Hfst.
  - split; [exact Hsave|]. split; [exact Hsub|]. vm_compute. reflexivity.
Defined.

(** Reading [m2] succeeds without output: the cycle raises on [m2], after
    the reply to [m1], and writes no state file. *)
Lemma empty_read_aborts_witness :
  (AStr "m2" ∉ fst (snd (process_entries default_config [JObj [("id", JStr "m1")]]
                           (∅, Demo.listed Demo.ReadEmpty))))
  /\ exists w3,
      run_mailgoat ["read"; "m2"]
        (snd (snd (process_entries default_config [JObj [("id", JStr "m1")]]
                     (∅, Demo.listed Demo.ReadEmpty))))
      = (Ok JNull, w3)
      /\ process_messages default_config (Demo.fresh Demo.ReadEmpty)
         = (Raise AttributeError, w3)
      /\ state_file w3 = Missing.
Proof.
  set (first := process_entries default_config [JObj [("id", JStr "m1")]]
                  (∅, Demo.listed Demo.ReadEmpty)).
  assert (Hnew : AStr "m2" ∉ fst (snd first)).
  { apply py_in_str_false. vm_compute. reflexivity. }
  split; [exact Hnew|].
  destruct (@empty_read_aborts (Demo.platform Demo.ReadEmpty) default_config
              (Demo.fresh Demo.ReadEmpty) (Demo.listed Demo.ReadEmpty)
              (snd (snd first)) ∅ (fst (snd first))
              [JObj [("id", JStr "m1")]] [JObj [("id", JStr "m3")]]
              (JObj [("id", JStr "m2")]) "m2"
              {| returncode := 0; stdout := EmptyString; stderr := EmptyString |} tt)
    as (w3 & Hread & _ & _ & Hcycle & [Hfile _] & _).
  - reflexivity.
  - unfold Demo.listed. apply outcome_eta. vm_compute. reflexivity.
  - subst first. apply loop_outcome_eta. vm_compute. reflexivity.
  - reflexivity.
  - discriminate.
  - exact Hnew.
  - reflexivity.
  - reflexivity.
  - reflexivity.
  - exists w3. split; [exact Hread|]. split; [exact Hcycle|exact Hfile].
Defined.


(** * Further properties of the agent *)

(** ** Reply policy *)

Lemma rstrip_cons (c : ascii) (r : string) :
  PyStr.rstrip (String c r) =
  match PyStr.rstrip r with
  | EmptyString => if PyStr.isspace c then EmptyString else String c EmptyString
  | String d t => String c (String d t)
  end.
Proof. reflexivity. Qed.

Lemma rstrip_idempotent (s : string) : PyStr.rstrip (PyStr.rstrip s) = PyStr.rstrip s.
Proof.
  induction s as [|c r IH]; [reflexivity|].
  rewrite rstrip_cons. destruct (PyStr.rstrip r) as [|d t] eqn:E.
  - destruct (PyStr.isspace c) eqn:Ec; [reflexivity|].
    rewrite rstrip_cons. cbn [PyStr.rstrip]. rewrite Ec. reflexivity.
  - rewrite rstrip_cons, IH. reflexivity.
Qed.

Lemma lstrip_head (s : string) :
  match PyStr.lstrip s with
  | String c _ => PyStr.isspace c = false
  | EmptyString => True
  end.
Proof.
  induction s as [|c r IH]; [exact I|].
  cbn [PyStr.lstrip]. destruct (PyStr.isspace c) eqn:Ec; [exact IH|exact Ec].
Qed.

Lemma rstrip_keeps_head (c : ascii) (r : string) :
  PyStr.isspace c = false ->
  exists t, PyStr.rstrip (String c r) = String c t.
Proof.
  intros Ec. rewrite rstrip_cons. destruct (PyStr.rstrip r); rewrite ?Ec; eauto.
Qed.

(** [strip] is idempotent. *)
Lemma strip_idempotent (s : string) : PyStr.strip (PyStr.strip s) = PyStr.strip s.
Proof.
  unfold PyStr.strip. pose proof (lstrip_head s) as Hhead.
  destruct (PyStr.lstrip s) as [|c r]; [reflexivity|].
  destruct (rstrip_keeps_head c r Hhead) as (t & Ht).
  rewrite Ht. cbn [PyStr.lstrip]. rewrite Hhead, <- Ht.
  apply rstrip_idempotent.
Qed.

(** X1: the cycle hands [build_reply_subject] a subject that it has trimmed
    already; trimming it again changes nothing, so on such a subject the
    result is the marker, a space and the subject when that starts with
    "re:" in any case, and the marker, " Re: " and the subject otherwise,
    with "(no subject)" for the empty subject. *)
Theorem build_reply_subject_after_strip (cfg : Config) (raw : string) :
  build_reply_subject cfg (PyStr.strip raw) =
  if re_prefixed (PyStr.strip raw)
  then REPLY_PREFIX cfg +:+ " " +:+ PyStr.strip raw
  else REPLY_PREFIX cfg +:+ " Re: "
       +:+ (if PyStr.truthy (PyStr.strip raw) then PyStr.strip raw
            else "(no subject)").
Proof.
  rewrite build_reply_subject_text. unfold subject_text.
  destruct (PyStr.strip raw) as [|c r] eqn:E; [reflexivity|].
  rewrite <- E, strip_idempotent, E. reflexivity.
Qed.

Lemma split_join (sep : ascii) (x : string) (lines : list string) :
  Forall (fun l => PyStr.contains sep l = false) (x :: lines) ->
  PyStr.split sep (PyStr.join (String sep EmptyString) (x :: lines)) = x :: lines.
Proof.
  revert x. induction lines as [|y lines IH]; intros x Hno.
  - apply Forall_inv in Hno. cbn [PyStr.join].
    induction x as [|c r IHx]; [reflexivity|].
    cbn [PyStr.contains] in Hno. cbn [PyStr.split].
    rewrite Ascii.eqb_sym.
    destruct (Ascii.eqb sep c); [discriminate|].
    rewrite (IHx Hno). reflexivity.
  - pose proof (Forall_inv Hno) as Hx. apply Forall_inv_tail in Hno.
    change (PyStr.join (String sep EmptyString) (x :: y :: lines))
      with (x +:+ String sep EmptyString
            +:+ PyStr.join (String sep EmptyString) (y :: lines)).
    induction x as [|c r IHx].
    + change (EmptyString +:+ ?t) with t.
      change (String sep EmptyString +:+ ?t) with (String sep t).
      cbn [PyStr.split]. rewrite Ascii.eqb_refl, (IH y Hno). reflexivity.
    + cbn [PyStr.contains] in Hx.
      change (String c r +:+ ?t) with (String c (r +:+ t)).
      cbn [PyStr.split]. rewrite Ascii.eqb_sym.
      destruct (Ascii.eqb sep c); [discriminate|].
      rewrite (IHx Hx). reflexivity.
Qed.

(** X2: when neither the sender nor the subject holds a line break, the
    reply body is the eight lines of the template: the greeting of the
    sender (of "there" without one), the two fixed lines, the line that
    echoes the subject ("(no subject)" without one) and the signature, with
    the empty lines between them. *)
Theorem build_reply_body_lines (sender subject : string) :
  PyStr.contains PyStr.newline sender = false ->
  PyStr.contains PyStr.newline subject = false ->
  PyStr.split PyStr.newline (build_reply_body sender subject) =
  [ "Hello " +:+ PyStr.or_else sender "there" +:+ ",";
    EmptyString;
    "Your email was received by the simple MailGoat agent.";
    "This is an automated acknowledgment while a human reviews your message.";
    EmptyString;
    "Original subject: " +:+ PyStr.or_else subject "(no subject)";
    EmptyString;
    "- MailGoat Simple Agent" ].
Proof.
  intros Hsender Hsubject.
  assert (Happ : forall a b, PyStr.contains PyStr.newline a = false ->
                             PyStr.contains PyStr.newline b = false ->
                             PyStr.contains PyStr.newline (a +:+ b) = false).
  { intros a b Ha Hb. induction a as [|c r IH]; [exact Hb|].
    change (String c r +:+ b) with (String c (r +:+ b)).
    cbn [PyStr.contains] in *. destruct (Ascii.eqb PyStr.newline c);
      [discriminate|auto]. }
  assert (Hor : forall a b, PyStr.contains PyStr.newline a = false ->
                            PyStr.contains PyStr.newline b = false ->
                            PyStr.contains PyStr.newline (PyStr.or_else a b) = false).
  { intros a b Ha Hb. unfold PyStr.or_else. destruct (PyStr.truthy a); assumption. }
  unfold build_reply_body. apply split_join.
  repeat (apply Forall_cons; split); try apply Forall_nil; try reflexivity.
  - apply Happ; [reflexivity|]. apply Happ; [|reflexivity].
    apply Hor; [exact Hsender|reflexivity].
  - apply Happ; [reflexivity|]. apply Hor; [exact Hsubject|reflexivity].
Qed.

(** A sender and a subject on one line each. *)
Lemma build_reply_body_lines_witness :
  PyStr.contains PyStr.newline "a@b.com" = false
  /\ PyStr.contains PyStr.newline EmptyString = false
  /\ nth 5 (PyStr.split PyStr.newline (build_reply_body "a@b.com" EmptyString))
         EmptyString
     = "Original subject: (no subject)"
  /\ length (PyStr.split PyStr.newline (build_reply_body "a@b.com" EmptyString)) = 8%nat.
Proof.
  split; [reflexivity|]. split; [reflexivity|].
  rewrite (build_reply_body_lines "a@b.com" EmptyString eq_refl eq_refl).
  split; reflexivity.
Defined.

(** ** State store *)

Lemma Z_leb_total (x y : Z) : (x <=? y) = true \/ (y <=? x) = true.
Proof.
  destruct (Z.leb_spec x y); [left; reflexivity|right; apply Z.leb_le; lia].
Qed.

Lemma atom_le_total : Total atom_le.
Proof.
  intros a b. unfold atom_le, atom_leb.
  destruct a as [|[]|x|x], b as [|[]|y|y]; cbn [num_value atom_rank];
    try apply Z_leb_total.
  destruct (String.le_total x y) as [Hle|Hle]; [left|right];
    apply Is_true_true in Hle; exact Hle.
Qed.

Lemma strings_of_atoms (l : list atom) :
  forallb is_str l = true -> exists ss, l = map AStr ss.
Proof.
  induction l as [|a l IH]; intros Hl.
  - exists []. reflexivity.
  - cbn [forallb] in Hl. apply andb_prop in Hl as [Ha Hl].
    destruct (IH Hl) as (ss & ->). destruct a; try discriminate.
    exists (s :: ss). reflexivity.
Qed.

Lemma sorted_strings (ss : list string) :
  Sorted atom_le (map AStr ss) -> StronglySorted String.le ss.
Proof.
  intros Hs. apply Sorted_StronglySorted; [apply _|].
  induction ss as [|x ss IH]; [constructor|].
  cbn [map] in Hs. apply Sorted_inv in Hs as [Hs Hhd].
  constructor; [exact (IH Hs)|].
  destruct ss as [|y ss]; constructor.
  apply HdRel_inv in Hhd. apply Is_true_true. exact Hhd.
Qed.

Section StateStoreMore.
Context `{Platform}.

(** X3: for a set of identifier strings, [save_state] writes one state
    file whose "processed_ids" array lists exactly the members of the set,
    each once, in ascending order of their code points. *)
Theorem save_state_writes_sorted (ids : gset string) (w : World) :
  exists ss : list string,
    StronglySorted String.le ss
    /\ NoDup ss
    /\ (forall s, s ∈ ss <-> s ∈ ids)
    /\ save_state (str_set ids) w =
       (Ok tt,
        {| state_file :=
             Holds (json_dumps (JObj [("processed_ids", JArr (map JStr ss))]));
           mailgoat := mailgoat w;
           trace := (trace w
                     ++ [WriteState
                           (json_dumps (JObj [("processed_ids", JArr (map JStr ss))]))])%list |}).
Proof.
  pose proof (py_sorted_str_set ids) as Hsorted.
  set (l := merge_sort atom_le (elements (str_set ids))) in *.
  assert (Hperm : l ≡ₚ elements (str_set ids)) by apply merge_sort_Permutation.
  assert (Hstr : forallb is_str l = true).
  { rewrite (forallb_perm _ _ _ Hperm). apply str_set_elements_strings. }
  destruct (strings_of_atoms l Hstr) as (ss & Hss).
  exists ss. split; [|split; [|split]].
  - apply sorted_strings. rewrite <- Hss.
    apply (@Sorted_merge_sort _ atom_le _ atom_le_total).
  - assert (Hnd : NoDup l) by (rewrite Hperm; apply NoDup_elements).
    rewrite Hss in Hnd. apply NoDup_fmap in Hnd; [exact Hnd|].
    intros x y [= ->]. reflexivity.
  - intros s. transitivity (AStr s ∈ l).
    + rewrite Hss. rewrite list_elem_of_fmap. split.
      * intros Hin. exists s. auto.
      * intros (y & [= ->] & Hin). exact Hin.
    + rewrite Hperm, elem_of_elements. unfold str_set. rewrite elem_of_map.
      split.
      * intros (y & [= ->] & Hin). exact Hin.
      * intros Hin. exists s. auto.
  - rewrite (save_state_sorted _ _ _ Hsorted). unfold state_payload.
    rewrite Hss, map_map. reflexivity.
Qed.

Lemma py_sorted_mixed (p : pyset) (a b : atom) :
  a ∈ p -> b ∈ p -> a <> b -> comparable a b = false ->
  py_sorted p = Raise TypeError.
Proof.
  intros Ha Hb Hne Hcmp. unfold py_sorted.
  apply elem_of_elements in Ha, Hb.
  assert (Hall : all_comparable (elements p) = false).
  { unfold all_comparable. apply not_true_is_false. intros Hall.
    rewrite forallb_forall in Hall.
    specialize (Hall a (proj1 (list_elem_of_In _ _) Ha)).
    rewrite forallb_forall in Hall.
    specialize (Hall b (proj1 (list_elem_of_In _ _) Hb)). congruence. }
  assert (Hlen : (length (elements p) <=? 1)%nat = false).
  { apply Nat.leb_gt. destruct (elements p) as [|x [|y l]]; cbn.
    - inversion Ha.
    - apply list_elem_of_singleton in Ha, Hb. congruence.
    - lia. }
  rewrite Hall, Hlen. reflexivity.
Qed.

(** X4: a set that holds a string together with a member that is no string
    cannot be sorted: [save_state] raises [TypeError] and writes nothing. *)
Theorem save_state_mixed_raises (p : pyset) (s : string) (a : atom) (w : World) :
  AStr s ∈ p -> a ∈ p -> is_str a = false ->
  save_state p w = (Raise TypeError, w).
Proof.
  intros Hs Ha Hkind. apply save_state_unsortable.
  apply (py_sorted_mixed p (AStr s) a Hs Ha).
  - intros <-. discriminate.
  - destruct a; try discriminate; reflexivity.
Qed.

(** X5: [load_state] reads a well-formed state file as the set of the
    strings in its "processed_ids" array, repeated ones once; a dict without
    that key gives the empty set. *)
Theorem load_state_reads_ids (w : World) (text : string)
        (members : list (string * json)) :
  state_file w = Holds text ->
  json_loads text = Some (JObj members) ->
  (forall ids : list string,
      dict_lookup "processed_ids" members = Some (JArr (map JStr ids)) ->
      load_state w = (Ok (str_set (list_to_set ids)), w))
  /\ (dict_lookup "processed_ids" members = None -> load_state w = (Ok ∅, w)).
Proof.
  intros Hfile Hparse. rewrite (load_state_present w text Hfile).
  unfold parse_state. rewrite Hparse. unfold py_get, dict_get. split.
  - intros ids Hids. rewrite Hids. cbn [py_set_of].
    assert (Hmap : mapM hashable (map JStr ids) = Some (map AStr ids)).
    { pose proof (hashable_json_of_atom (map AStr ids)) as Hmap.
      rewrite map_map in Hmap. exact Hmap. }
    rewrite Hmap. rewrite py_set_strings.
    + do 2 f_equal. unfold str_set. apply set_eq. intros a.
      rewrite elem_of_list_to_set, elem_of_map, list_elem_of_fmap.
      setoid_rewrite elem_of_list_to_set. reflexivity.
    + apply forallb_forall. intros a Ha. apply in_map_iff in Ha as (x & <- & _).
      reflexivity.
  - intros Hnone. rewrite Hnone. reflexivity.
Qed.

(** X6: [load_state] falls back to the empty set on every state file of the
    wrong shape: a document that is no dict, a "processed_ids" that is
    [null], a boolean or a number, and an array that holds an array or a
    dict. *)
Theorem load_state_wrong_shape (w : World) (text : string) (payload : json) :
  state_file w = Holds text ->
  json_loads text = Some payload ->
  (forall members, payload <> JObj members)
  \/ (exists members v,
        payload = JObj members
        /\ dict_lookup "processed_ids" members = Some v
        /\ (v = JNull \/ (exists b, v = JBool b) \/ (exists n, v = JInt n)
            \/ exists items item,
                v = JArr items /\ item ∈ items /\ hashable item = None)) ->
  load_state w = (Ok ∅, w).
Proof.
  intros Hfile Hparse Hshape. rewrite (load_state_present w text Hfile).
  unfold parse_state. rewrite Hparse.
  destruct Hshape as [Hnodict|(members & v & -> & Hv & Hbad)].
  - destruct payload; try reflexivity. now destruct (Hnodict members).
  - unfold py_get, dict_get. rewrite Hv.
    destruct Hbad as [->|[(b & ->)|[(n & ->)|(items & item & -> & Hin & Hitem)]]];
      try reflexivity.
    cbn [py_set_of]. destruct (mapM hashable items) as [l|] eqn:Hl; [|reflexivity].
    apply mapM_Some in Hl.
    apply list_elem_of_lookup in Hin as (i & Hi).
    destruct (Forall2_lookup_l _ _ _ _ _ Hl Hi) as (y & _ & Hy). congruence.
Qed.

End StateStoreMore.

(** ** One turn of the loop *)

Section Turn.
Context `{Platform}.
Variable cfg : Config.

(** The three ways into a turn: an entry that is no dict, an entry to skip,
    an unseen entry. *)
Lemma entry_cases (entry : json) (p : pyset) :
  entry_id entry = None
  \/ (exists msg_id, entry_id entry = Some msg_id
                     /\ (msg_id = EmptyString \/ AStr msg_id ∈ p))
  \/ (exists msg_id, entry_id entry = Some msg_id
                     /\ msg_id <> EmptyString /\ AStr msg_id ∉ p).
Proof.
  destruct (entry_id entry) as [msg_id|]; [right|now left].
  destruct (decide (msg_id = EmptyString)) as [He|Hne]; [left; eauto|].
  destruct (decide (AStr msg_id ∈ p)) as [Hin|Hnew]; [left; eauto|right; eauto].
Qed.

Lemma run_mailgoat_trace (args : list string) (w : World) :
  state_file (snd (run_mailgoat args w)) = state_file w
  /\ trace (snd (run_mailgoat args w))
     = (trace w ++ [Exec (["mailgoat"] ++ args ++ ["--json"])])%list.
Proof.
  destruct (run_mailgoat args w) as [r w'] eqn:Hrun.
  exact (run_mailgoat_world _ _ _ _ Hrun).
Qed.

(** What a turn does to [processed]: nothing, or it adds the identifier of
    its entry, which is then not empty and was not there, and the turn ends
    normally. *)
Lemma process_entry_own_id (entry : json) (p p' : pyset) (w w' : World)
      (r : result unit) :
  process_entry cfg entry (p, w) = (r, (p', w')) ->
  p' = p
  \/ (r = Ok tt
      /\ exists msg_id, entry_id entry = Some msg_id /\ msg_id <> EmptyString
                        /\ (AStr msg_id ∉ p) /\ p' = {[ AStr msg_id ]} ∪ p).
Proof.
  intros Hstep.
  destruct (entry_cases entry p)
    as [Hid|[(m & Hid & Hskip)|(m & Hid & Hne & Hnew)]].
  - rewrite (process_entry_not_dict cfg _ _ Hid) in Hstep.
    injection Hstep as _ <- _. now left.
  - rewrite (process_entry_skip cfg _ _ _ _ Hid Hskip) in Hstep.
    injection Hstep as _ <- _. now left.
  - rewrite (process_entry_unseen cfg _ _ _ _ Hid Hne Hnew) in Hstep.
    destruct (run_mailgoat _ w) as [[details|e] w1];
      [|injection Hstep as _ <- _; now left].
    destruct (py_get details "from" _) as [from_field|e];
      [|injection Hstep as _ <- _; now left].
    destruct (py_get details "subject" _) as [subject_field|e];
      [|injection Hstep as _ <- _; now left].
    cbn zeta in Hstep. destruct (negb _).
    + injection Hstep as <- <- _. right. split; [reflexivity|].
      exists m. rewrite py_add_str. auto.
    + destruct (run_mailgoat _ w1) as [[sent|e] w2];
        [|injection Hstep as _ <- _; now left].
      injection Hstep as <- <- _. right. split; [reflexivity|].
      exists m. rewrite py_add_str. auto.
Qed.

Lemma process_entry_events (entry : json) (p : pyset) (w : World) :
  state_file (snd (snd (process_entry cfg entry (p, w)))) = state_file w
  /\ exists evs,
      trace (snd (snd (process_entry cfg entry (p, w)))) = (trace w ++ evs)%list
      /\ turn_events cfg evs.
Proof.
  destruct (entry_cases entry p)
    as [Hid|[(m & Hid & Hskip)|(m & Hid & Hne & Hnew)]].
  - rewrite (process_entry_not_dict cfg _ _ Hid). cbn [snd].
    split; [reflexivity|]. exists []. rewrite app_nil_r. split; [reflexivity|constructor].
  - rewrite (process_entry_skip cfg _ _ _ _ Hid Hskip). cbn [snd].
    split; [reflexivity|]. exists []. rewrite app_nil_r. split; [reflexivity|constructor].
  - rewrite (process_entry_unseen cfg _ _ _ _ Hid Hne Hnew).
    destruct (run_mailgoat_trace ["read"; m] w) as [Hf1 Ht1].
    destruct (run_mailgoat ["read"; m] w) as [[details|e] w1]; cbn [snd] in Hf1, Ht1.
    2:{ cbn [snd]. split; [exact Hf1|]. eexists. split; [exact Ht1|].
        now apply turn_read. }
    destruct (py_get details "from" _) as [from_field|e].
    2:{ cbn [snd]. split; [exact Hf1|]. eexists. split; [exact Ht1|].
        now apply turn_read. }
    destruct (py_get details "subject" _) as [subject_field|e].
    2:{ cbn [snd]. split; [exact Hf1|]. eexists. split; [exact Ht1|].
        now apply turn_read. }
    cbn zeta.
    destruct (PyStr.strip (py_str from_field)) as [|c r] eqn:Hsender;
      cbn [PyStr.truthy negb].
    { cbn [snd]. split; [exact Hf1|]. eexists. split; [exact Ht1|].
      now apply turn_read. }
    destruct (run_mailgoat_trace
                (send_args cfg (String c r) (PyStr.strip (py_str subject_field))) w1)
      as [Hf2 Ht2].
    destruct (run_mailgoat (send_args cfg (String c r) _) w1) as [[sent|e] w2];
      cbn [snd] in Hf2, Ht2 |- *.
    + split; [cbn; congruence|].
      exists [Exec (read_cmd m);
              Exec (send_cmd cfg (String c r) (PyStr.strip (py_str subject_field)));
              Stdout (replied_line (String c r) m)].
      split; [|apply turn_replied; [exact Hne|discriminate]].
      cbn [print emit trace snd]. rewrite Ht2, Ht1, <- !app_assoc. reflexivity.
    + split; [congruence|].
      exists [Exec (read_cmd m);
              Exec (send_cmd cfg (String c r) (PyStr.strip (py_str subject_field)))].
      split; [|apply turn_send; [exact Hne|discriminate]].
      rewrite Ht2, Ht1, <- !app_assoc. reflexivity.
Qed.

(** X7: one turn of the loop never writes the state file, and it adds to
    the trace nothing, or the read of its identifier, or that read followed
    by one reply to a sender that is not empty, with the line reporting it
    when the reply succeeded: at most one read and one reply, the reply
    never before the read and never to an empty recipient. *)
Theorem turn_reads_then_replies (entry : json) (p : pyset) (w : World) :
  state_file (snd (snd (process_entry cfg entry (p, w)))) = state_file w
  /\ exists evs,
      trace (snd (snd (process_entry cfg entry (p, w)))) = (trace w ++ evs)%list
      /\ turn_events cfg evs.
Proof. apply process_entry_events. Qed.

(** X8: the reply to an unseen entry. When the read gives a dict with a
    sender that is not empty after trimming, and the send succeeds, the turn
    runs the read and then one send to the trimmed sender, with the subject
    and the body of the reply policy on the trimmed subject and the "--from"
    option exactly when [FROM_HINT] is set; it adds the identifier to
    [processed] and reports the reply on the standard output. *)
Theorem reply_to_unseen_entry (entry : json) (msg_id sender subject : string)
        (p : pyset) (w w1 w2 : World) (members : list (string * json))
        (sent : json) :
  entry_id entry = Some msg_id ->
  msg_id <> EmptyString -> AStr msg_id ∉ p ->
  run_mailgoat ["read"; msg_id] w = (Ok (JObj members), w1) ->
  PyStr.strip (py_str (dict_get "from" (JStr EmptyString) members)) = sender ->
  PyStr.strip (py_str (dict_get "subject" (JStr EmptyString) members)) = subject ->
  sender <> EmptyString ->
  run_mailgoat (send_args cfg sender subject) w1 = (Ok sent, w2) ->
  exists w3,
    process_entry cfg entry (p, w) = (Ok tt, ({[ AStr msg_id ]} ∪ p, w3))
    /\ state_file w3 = state_file w
    /\ trace w3 =
       (trace w ++ [ Exec (read_cmd msg_id);
                     Exec (send_cmd cfg sender subject);
                     Stdout (replied_line sender msg_id) ])%list
    /\ send_args cfg sender subject =
       ([ "send"; "--to"; sender;
          "--subject"; build_reply_subject cfg subject;
          "--body"; build_reply_body sender subject ]
        ++ match FROM_HINT cfg with
           | EmptyString => []
           | hint => ["--from"; hint]
           end)%list.
Proof.
  intros Hid Hne Hnew Hread Hfrom Hsubject Hsender Hsend.
  destruct (run_mailgoat_world _ _ _ _ Hread) as [Hf1 Ht1].
  destruct (run_mailgoat_world _ _ _ _ Hsend) as [Hf2 Ht2].
  eexists. split; [|split; [|split]].
  - rewrite (process_entry_unseen cfg _ _ _ _ Hid Hne Hnew), Hread.
    cbn [py_get]. cbn zeta. rewrite Hfrom, Hsubject.
    destruct sender as [|c r]; [congruence|]. cbn [PyStr.truthy negb].
    rewrite Hsend, py_add_str. reflexivity.
  - cbn. congruence.
  - cbn [print emit trace snd]. rewrite Ht2, Ht1, <- !app_assoc. reflexivity.
  - unfold send_args. destruct (FROM_HINT cfg); reflexivity.
Qed.

(** X9: an entry without a sender. When the read gives a dict whose "from"
    is missing or empty after trimming, the turn sends nothing: it marks the
    identifier processed, and the read is the only command it ran. *)
Theorem entry_without_sender (entry : json) (msg_id : string) (p : pyset)
        (w w1 : World) (members : list (string * json)) :
  entry_id entry = Some msg_id ->
  msg_id <> EmptyString -> AStr msg_id ∉ p ->
  run_mailgoat ["read"; msg_id] w = (Ok (JObj members), w1) ->
  PyStr.strip (py_str (dict_get "from" (JStr EmptyString) members)) = EmptyString ->
  process_entry cfg entry (p, w) = (Ok tt, ({[ AStr msg_id ]} ∪ p, w1))
  /\ state_file w1 = state_file w
  /\ trace w1 = (trace w ++ [Exec (read_cmd msg_id)])%list.
Proof.
  intros Hid Hne Hnew Hread Hsender.
  destruct (run_mailgoat_world _ _ _ _ Hread) as [Hf1 Ht1].
  split; [|split; [exact Hf1|exact Ht1]].
  rewrite (process_entry_unseen cfg _ _ _ _ Hid Hne Hnew), Hread.
  cbn [py_get]. cbn zeta. rewrite Hsender. cbn [PyStr.truthy negb].
  rewrite py_add_str. reflexivity.
Qed.

(** X10: an identifier that the listing holds twice is handled once. After
    a turn on an entry ended normally, a turn on any entry with the same
    identifier does nothing, whatever was added to [processed] in between. *)
Theorem same_id_handled_once (entry entry' : json) (p p1 p2 : pyset)
        (w w1 w2 : World) :
  process_entry cfg entry (p, w) = (Ok tt, (p1, w1)) ->
  entry_id entry' = entry_id entry ->
  p1 ⊆ p2 ->
  process_entry cfg entry' (p2, w2) = (Ok tt, (p2, w2)).
Proof.
  intros Hstep Hsame Hsub.
  destruct (process_entry_ok_seen cfg _ _ _ _ _ Hstep) as (m & Hid & Hseen).
  apply (process_entry_skip cfg entry' m); [congruence|].
  destruct Hseen as [->|Hin]; [now left|right]. apply Hsub, Hin.
Qed.

End Turn.

(** ** One cycle *)

Section CycleMore.
Context `{Platform}.
Variable cfg : Config.

(** X11: a cycle that raises before it gets to the write has not written
    the state file. Whether the exception comes from the existence check of
    the state path, from the listing, from a turn of the loop or from the
    sorting in [save_state], the cycle raises that exception, the state file
    is the one before the cycle, and the cycle only ran commands and printed
    to the standard output; after a failing existence check it did nothing
    at all. *)
Theorem raising_cycle_keeps_state_file (w : World) :
  (forall msg,
      state_file w = Unprobeable msg ->
      process_messages cfg w = (Raise (OSError msg), w))
  /\ (forall p0 e w1,
        load_state w = (Ok p0, w) ->
        run_mailgoat inbox_list_args w = (Raise e, w1) ->
        process_messages cfg w = (Raise e, w1) /\ unsaved w w1)
  /\ (forall p0 entries w1 e p1 w2,
        load_state w = (Ok p0, w) ->
        run_mailgoat inbox_list_args w = (Ok (JArr entries), w1) ->
        process_entries cfg entries (p0, w1) = (Raise e, (p1, w2)) ->
        process_messages cfg w = (Raise e, w2) /\ unsaved w w2)
  /\ (forall p0 entries w1 e p1 w2,
        load_state w = (Ok p0, w) ->
        run_mailgoat inbox_list_args w = (Ok (JArr entries), w1) ->
        process_entries cfg entries (p0, w1) = (Ok tt, (p1, w2)) ->
        py_sorted p1 = Raise e ->
        process_messages cfg w = (Raise e, w2) /\ unsaved w w2).
Proof.
  split; [|split; [|split]].
  - intros msg Hf. exact (process_messages_unloaded cfg _ _ Hf).
  - intros p0 e w1 Hload Hlist.
    split; [|exact (run_mailgoat_unsaved _ _ _ _ Hlist)].
    unfold process_messages, bind at 1. rewrite Hload.
    unfold bind at 1. rewrite Hlist. reflexivity.
  - intros p0 entries w1 e p1 w2 Hload Hlist Hloop.
    destruct (cycle_raises_unsaved cfg _ _ _ _ _ _ _ Hload Hlist Hloop)
      as (Hcycle & Hq & _).
    split; [exact Hcycle|exact Hq].
  - intros p0 entries w1 e p1 w2 Hload Hlist Hloop Hsorted.
    pose proof (run_mailgoat_unsaved _ _ _ _ Hlist) as Hq1.
    pose proof (process_entries_steps cfg _ _ _ _ _ _ Hloop) as [Hq2 _].
    split; [|exact (unsaved_trans _ _ _ Hq1 Hq2)].
    rewrite (process_messages_listing cfg _ _ _ _ Hload Hlist), Hloop.
    exact (save_state_unsortable _ _ _ Hsorted).
Qed.

(** X12: a cycle over an array listing that ends normally writes the state
    file exactly once, as its last act, also when no entry was new: the
    trace grows by the listing, the commands and lines of the loop, and one
    [WriteState] whose text is the state file afterwards. *)
Theorem completed_cycle_writes_once (w w1 w' : World) (entries : list json) :
  run_mailgoat inbox_list_args w = (Ok (JArr entries), w1) ->
  process_messages cfg w = (Ok tt, w') ->
  exists evs text,
    trace w' =
    (trace w ++ [Exec (["mailgoat"] ++ inbox_list_args ++ ["--json"])]
             ++ evs ++ [WriteState text])%list
    /\ forallb loop_event evs = true
    /\ state_file w' = Holds text.
Proof.
  intros Hlist Hcycle.
  destruct (load_state_cases w) as [(p0 & Hload)|(msg & Hf & _)];
    [|rewrite (process_messages_unloaded cfg _ _ Hf) in Hcycle; discriminate].
  rewrite (process_messages_listing cfg _ _ _ _ Hload Hlist) in Hcycle.
  destruct (process_entries cfg entries (p0, w1)) as [[[]|e] [p1 w2]] eqn:Hloop;
    [|discriminate].
  destruct (process_entries_steps cfg _ _ _ _ _ _ Hloop) as [(_ & evs & Ht2 & Hevs) _].
  destruct (run_mailgoat_world _ _ _ _ Hlist) as [_ Ht1].
  destruct (py_sorted p1) as [l|e] eqn:Hsorted;
    [|rewrite (save_state_unsortable _ _ _ Hsorted) in Hcycle; discriminate].
  rewrite (save_state_sorted _ _ _ Hsorted) in Hcycle. injection Hcycle as <-.
  exists evs, (json_dumps (state_payload l)). cbn [trace state_file].
  split; [|split; [exact Hevs|reflexivity]].
  rewrite Ht2, Ht1, <- !app_assoc. reflexivity.
Qed.

(** What the loop adds to [processed] are the non-empty identifiers of the
    listing, and nothing else. *)
Lemma process_entries_ids (entries : list json) (p p1 : pyset) (w w1 : World) :
  process_entries cfg entries (p, w) = (Ok tt, (p1, w1)) ->
  forall a, a ∈ p1 <-> a ∈ p \/ exists msg_id, listed_id entries msg_id /\ a = AStr msg_id.
Proof.
  intros Hloop a. split.
  - revert p w Hloop. induction entries as [|first rest IH]; intros p w Hloop Ha.
    + injection Hloop as <- _. now left.
    + rewrite process_entries_cons in Hloop.
      destruct (process_entry cfg first (p, w)) as [[[]|e] [p2 w2]] eqn:Hstep;
        [|discriminate].
      destruct (IH _ _ Hloop Ha) as [Hin|(m & (Hne & entry & Hentry & Hid) & ->)].
      * destruct (process_entry_own_id cfg _ _ _ _ _ _ Hstep)
          as [->|(_ & m & Hid & Hne & _ & ->)]; [now left|].
        apply elem_of_union in Hin as [Hin|Hin]; [|now left].
        apply elem_of_singleton in Hin as ->.
        right. exists m. split; [|reflexivity].
        split; [exact Hne|]. exists first. split; [apply list_elem_of_here|exact Hid].
      * right. exists m. split; [|reflexivity].
        split; [exact Hne|]. exists entry.
        split; [now apply list_elem_of_further|exact Hid].
  - intros [Hin|(m & (Hne & entry & Hentry & Hid) & ->)].
    + apply process_entries_steps in Hloop as [_ Hsub]. apply Hsub, Hin.
    + destruct (process_entries_ok_seen cfg _ _ _ _ _ Hloop entry Hentry)
        as (m' & Hid' & Hseen).
      assert (m' = m) as -> by congruence.
      destruct Hseen; [contradiction|assumption].
Qed.


(** X14: a state file with an identifier that is no string stops the agent
    from ever saving again once a message is listed. The cycle loads the
    identifier, the loop handles the listing and replies, and [save_state]
    then raises [TypeError] on the mixed set: the cycle raises after its
    replies were sent and leaves the state file as it was, so the next cycle
    starts from the same state. *)
Theorem foreign_id_blocks_saving (w w1 w2 : World) (p0 p1 : pyset) (a : atom)
        (entries : list json) (msg_id : string) :
  load_state w = (Ok p0, w) ->
  a ∈ p0 -> is_str a = false ->
  run_mailgoat inbox_list_args w = (Ok (JArr entries), w1) ->
  process_entries cfg entries (p0, w1) = (Ok tt, (p1, w2)) ->
  listed_id entries msg_id ->
  process_messages cfg w = (Raise TypeError, w2)
  /\ unsaved w w2
  /\ load_state w2 = (Ok p0, w2).
Proof.
  intros Hload Ha Hkind Hlist Hloop Hlisted.
  pose proof (proj2 (process_entries_ids _ _ _ _ _ Hloop (AStr msg_id))
                (or_intror (ex_intro _ msg_id (conj Hlisted eq_refl)))) as Hm.
  pose proof (proj2 (process_entries_ids _ _ _ _ _ Hloop a) (or_introl Ha)) as Ha1.
  pose proof (run_mailgoat_unsaved _ _ _ _ Hlist) as Hq1.
  pose proof (process_entries_steps cfg _ _ _ _ _ _ Hloop) as [Hq2 _].
  pose proof (unsaved_trans _ _ _ Hq1 Hq2) as Hq.
  split; [|split; [exact Hq|]].
  - rewrite (process_messages_listing cfg _ _ _ _ Hload Hlist), Hloop.
    apply save_state_unsortable.
    apply (py_sorted_mixed p1 (AStr msg_id) a Hm Ha1).
    + intros <-. discriminate.
    + destruct a; try discriminate; reflexivity.
  - exact (load_state_again w w2 p0 (proj1 Hq) Hload).
Qed.

Lemma main_loop_sleep_raises (n : nat) (w : World) (e : exn) :
  (forall w1, sleep (POLL_SECONDS cfg) w1 = (Raise e, w1)) ->
  main_loop cfg (S n) w = (Raise e, before_sleep cfg w).
Proof.
  intros Hsleep. cbn [main_loop].
  unfold bind at 1, main_iteration, bind, try_except, before_sleep.
  destruct (process_messages cfg w) as [[[]|exc] [f g t]]; cbn [fst snd].
  - rewrite Hsleep, app_nil_r. reflexivity.
  - unfold print_exc, emit. rewrite Hsleep. reflexivity.
Qed.

(** X15: an interval that [time.sleep] refuses ends the agent in its first
    turn. The first cycle runs and its failure, if any, is reported; then
    [time.sleep] raises outside the [try], and the loop does not reach a
    second cycle. The exception is [ValueError] for a negative interval
    down to minus [sleep_max] seconds, and [OverflowError] for an interval
    beyond [sleep_max] seconds on either side. *)
Theorem refused_interval_stops_loop (n : nat) (w : World) :
  (- sleep_max <= POLL_SECONDS cfg < 0 ->
   main_loop cfg (S n) w = (Raise ValueError, before_sleep cfg w))
  /\ (POLL_SECONDS cfg < - sleep_max \/ sleep_max < POLL_SECONDS cfg ->
      main_loop cfg (S n) w = (Raise OverflowError, before_sleep cfg w)).
Proof.
  assert (Hmax : 0 <= sleep_max) by (vm_compute; discriminate).
  split; intros Hpoll; apply main_loop_sleep_raises; intros w1; unfold sleep.
  - destruct (Z.ltb_spec (POLL_SECONDS cfg) (- sleep_max)); [lia|].
    destruct (Z.ltb_spec sleep_max (POLL_SECONDS cfg)); [lia|].
    destruct (Z.ltb_spec (POLL_SECONDS cfg) 0); [reflexivity|lia].
  - destruct (Z.ltb_spec (POLL_SECONDS cfg) (- sleep_max)); [reflexivity|].
    destruct (Z.ltb_spec sleep_max (POLL_SECONDS cfg)); [reflexivity|lia].
Qed.

End CycleMore.

(** ** Commands of the gateway *)

Section Commands.
Context `{Platform}.
Variable cfg : Config.

(** X16: a gateway call runs exactly one command, the arguments between
    "mailgoat" and "--json", and leaves the state file alone, whether the
    command succeeds, fails or cannot be run; when it cannot be run, the
    exception of [subprocess.run] is the one the call raises. *)
Theorem gateway_call_runs_one_command (args : list string) (w : World) :
  state_file (snd (run_mailgoat args w)) = state_file w
  /\ trace (snd (run_mailgoat args w))
     = (trace w ++ [Exec (["mailgoat"] ++ args ++ ["--json"])])%list
  /\ (forall e g,
        subprocess_run (["mailgoat"] ++ args ++ ["--json"])%list (mailgoat w)
        = (Raise e, g) ->
        fst (run_mailgoat args w) = Raise e).
Proof.
  destruct (run_mailgoat_trace args w) as [Hf Ht].
  split; [exact Hf|]. split; [exact Ht|].
  intros e g Hrun. unfold run_mailgoat, bind, run_subprocess.
  rewrite Hrun. reflexivity.
Qed.

Lemma commands_app (a b : list event) : commands (a ++ b) = (commands a + commands b)%nat.
Proof. unfold commands. rewrite filter_app, length_app. reflexivity. Qed.

Lemma turn_events_commands (evs : list event) :
  turn_events cfg evs -> (commands evs <= 2)%nat.
Proof. intros []; vm_compute; lia. Qed.

Lemma process_entries_commands (entries : list json) (p : pyset) (w : World) :
  exists evs,
    trace (snd (snd (process_entries cfg entries (p, w)))) = (trace w ++ evs)%list
    /\ (commands evs <= 2 * length entries)%nat.
Proof.
  revert p w. induction entries as [|entry rest IH]; intros p w.
  - exists []. cbn. rewrite app_nil_r. split; [reflexivity|lia].
  - rewrite process_entries_cons.
    destruct (process_entry_events cfg entry p w) as (_ & evs1 & Ht1 & Hshape).
    apply turn_events_commands in Hshape.
    destruct (process_entry cfg entry (p, w)) as [[[]|e] [p1 w1]]; cbn [snd] in Ht1.
    + destruct (IH p1 w1) as (evs2 & Ht2 & Hn2).
      exists (evs1 ++ evs2)%list. split.
      * rewrite Ht2, Ht1, <- app_assoc. reflexivity.
      * rewrite commands_app. cbn [length]. lia.
    + exists evs1. cbn [snd]. split; [exact Ht1|]. cbn [length]. lia.
Qed.

(** X17: a cycle over a listing of [n] entries runs at most [1 + 2 n]
    commands: the listing, and for each entry at most one read and one
    reply. *)
Theorem cycle_command_bound (w w1 : World) (entries : list json) :
  run_mailgoat inbox_list_args w = (Ok (JArr entries), w1) ->
  exists evs,
    trace (snd (process_messages cfg w)) = (trace w ++ evs)%list
    /\ (commands evs <= 1 + 2 * length entries)%nat.
Proof.
  intros Hlist.
  destruct (load_state_cases w) as [(p0 & Hload)|(msg & Hf & _)].
  2:{ rewrite (process_messages_unloaded cfg _ _ Hf). exists [].
      cbn [snd]. rewrite app_nil_r. split; [reflexivity|]. cbn. lia. }
  destruct (run_mailgoat_world _ _ _ _ Hlist) as [_ Ht1].
  rewrite (process_messages_listing cfg _ _ _ _ Hload Hlist).
  destruct (process_entries_commands entries p0 w1) as (evs & Ht2 & Hn).
  destruct (process_entries cfg entries (p0, w1)) as [[[]|e] [p1 w2]];
    cbn [snd] in Ht2.
  - destruct (py_sorted p1) as [l|e] eqn:Hsorted.
    + rewrite (save_state_sorted _ _ _ Hsorted). cbn [snd trace].
      exists ([Exec (["mailgoat"] ++ inbox_list_args ++ ["--json"])] ++ evs
              ++ [WriteState (json_dumps (state_payload l))])%list.
      split; [rewrite Ht2, Ht1, <- !app_assoc; reflexivity|].
      rewrite !commands_app. change (commands [Exec _]) with 1%nat.
      change (commands [WriteState _]) with 0%nat. lia.
    + rewrite (save_state_unsortable _ _ _ Hsorted). cbn [snd].
      exists ([Exec (["mailgoat"] ++ inbox_list_args ++ ["--json"])] ++ evs)%list.
      split; [rewrite Ht2, Ht1, <- !app_assoc; reflexivity|].
      rewrite !commands_app. change (commands [Exec _]) with 1%nat. lia.
  - cbn [snd].
    exists ([Exec (["mailgoat"] ++ inbox_list_args ++ ["--json"])] ++ evs)%list.
    split; [rewrite Ht2, Ht1, <- !app_assoc; reflexivity|].
    rewrite !commands_app. change (commands [Exec _]) with 1%nat. lia.
Qed.

(** X18: a listing entry that is no dict (a string, a number, [null], an
    array) makes the cycle raise [AttributeError] at that entry: the entries
    before it were handled, the entries after it are not looked at, and the
    state file is not written. *)
Theorem entry_no_dict_aborts (w w1 w2 : World) (p0 p : pyset)
        (pre post : list json) (entry : json) :
  load_state w = (Ok p0, w) ->
  run_mailgoat inbox_list_args w = (Ok (JArr (pre ++ entry :: post)), w1) ->
  process_entries cfg pre (p0, w1) = (Ok tt, (p, w2)) ->
  (forall members, entry <> JObj members) ->
  process_messages cfg w = (Raise AttributeError, w2)
  /\ unsaved w w2.
Proof.
  intros Hload Hlist Hpre Hshape.
  assert (Hid : entry_id entry = None).
  { destruct entry; try reflexivity. now destruct (Hshape members). }
  assert (Hloop : process_entries cfg (pre ++ entry :: post) (p0, w1)
                  = (Raise AttributeError, (p, w2))).
  { rewrite process_entries_app, Hpre, process_entries_cons.
    rewrite (process_entry_not_dict cfg _ _ Hid). reflexivity. }
  destruct (cycle_raises_unsaved cfg _ _ _ _ _ _ _ Hload Hlist Hloop)
    as (Hcycle & Hq & _).
  split; [exact Hcycle|exact Hq].
Qed.

Lemma strip_blank_id (members : list (string * json)) :
  dict_lookup "id" members = None ->
  entry_id (JObj members) = Some EmptyString.
Proof. intros Hid. cbn [entry_id]. unfold dict_get. rewrite Hid. reflexivity. Qed.

(** A turn on an unseen entry starts with the read of its identifier. *)
Lemma process_entry_reads_first (entry : json) (msg_id : string) (p : pyset)
      (w : World) :
  entry_id entry = Some msg_id ->
  msg_id <> EmptyString -> AStr msg_id ∉ p ->
  exists evs,
    trace (snd (snd (process_entry cfg entry (p, w))))
    = (trace w ++ Exec (read_cmd msg_id) :: evs)%list.
Proof.
  intros Hid Hne Hnew.
  rewrite (process_entry_unseen cfg _ _ _ _ Hid Hne Hnew).
  destruct (run_mailgoat_trace ["read"; msg_id] w) as [_ Ht1].
  destruct (run_mailgoat ["read"; msg_id] w) as [[details|e] w1]; cbn [snd] in Ht1;
    [|exists []; exact Ht1].
  destruct (py_get details "from" _) as [from_field|e]; [|exists []; exact Ht1].
  destruct (py_get details "subject" _) as [subject_field|e];
    [|exists []; exact Ht1].
  cbn zeta. destruct (negb _); [exists []; exact Ht1|].
  destruct (run_mailgoat_trace
              (send_args cfg (PyStr.strip (py_str from_field))
                 (PyStr.strip (py_str subject_field))) w1) as [_ Ht2].
  destruct (run_mailgoat (send_args cfg _ _) w1) as [[sent|e] w2];
    cbn [snd] in Ht2 |- *.
  - cbn [print emit trace snd]. rewrite Ht2, Ht1, <- !app_assoc.
    eexists. reflexivity.
  - rewrite Ht2, Ht1, <- app_assoc. eexists. reflexivity.
Qed.

(** X19: how the loop reads the identifier of an entry. An entry without
    an "id", or with an "id" that is a string of white space only, is
    skipped without any command. An entry whose "id" is [null] is not
    skipped: its identifier is the text "None", the turn handles it as it
    handles the entry whose "id" is the string "None", and while "None" is
    not in [processed] the turn starts by running the command that reads
    the message "None". *)
Theorem entry_identifier_edge_cases (members : list (string * json))
        (p : pyset) (w : World) :
  (dict_lookup "id" members = None ->
   process_entry cfg (JObj members) (p, w) = (Ok tt, (p, w)))
  /\ (forall s, dict_lookup "id" members = Some (JStr s) ->
                PyStr.strip s = EmptyString ->
                process_entry cfg (JObj members) (p, w) = (Ok tt, (p, w)))
  /\ (dict_lookup "id" members = Some JNull ->
      process_entry cfg (JObj members) (p, w)
      = process_entry cfg (JObj [("id", JStr "None")]) (p, w)
      /\ (AStr "None" ∉ p ->
          exists evs,
            trace (snd (snd (process_entry cfg (JObj members) (p, w))))
            = (trace w ++ Exec ["mailgoat"; "read"; "None"; "--json"] :: evs)%list)).
Proof.
  split; [|split].
  - intros Hid. apply (process_entry_skip cfg _ EmptyString); [|now left].
    apply strip_blank_id, Hid.
  - intros s Hid Hblank. apply (process_entry_skip cfg _ EmptyString); [|now left].
    cbn [entry_id]. unfold dict_get. rewrite Hid. cbn [py_str]. now rewrite Hblank.
  - intros Hid. split.
    + unfold process_entry, bind at 1, lift at 1, py_get at 1, dict_get.
      rewrite Hid. reflexivity.
    + intros Hnew. apply (process_entry_reads_first _ "None"); [|discriminate|exact Hnew].
      cbn [entry_id]. unfold dict_get. rewrite Hid. reflexivity.
Qed.

End Commands.

(** ** The further properties on the runs of [Demo] *)

Lemma outcome_fields `{Platform} {A : Type} (x : result A * World)
      (r : result A) (w : World) (file : path_state) :
  x = (r, w) -> state_file w = file -> fst x = r /\ state_file (snd x) = file.
Proof. intros -> Hfile. split; [reflexivity|exact Hfile]. Qed.

(** A set of one string and one number. *)
Lemma save_state_mixed_raises_witness :
  save_state ({[ AStr "m1" ]} ∪ {[ AInt 7 ]}) (Demo.fresh Demo.Healthy)
  = (Raise TypeError, Demo.fresh Demo.Healthy).
Proof.
  apply (@save_state_mixed_raises (Demo.platform Demo.Healthy) _ "m1" (AInt 7));
    [set_solver|set_solver|reflexivity].
Defined.

(** A state file that lists "b" twice is read as the set of "a" and "b". *)
Lemma load_state_reads_ids_witness :
  load_state (Demo.with_file Demo.Healthy Demo.repeated_state)
  = (Ok (str_set (list_to_set ["b"; "a"; "b"])),
     Demo.with_file Demo.Healthy Demo.repeated_state)
  /\ size (str_set (list_to_set ["b"; "a"; "b"])) = 2%nat.
Proof.
  split; [|vm_compute; reflexivity].
  apply (proj1 (@load_state_reads_ids (Demo.platform Demo.Healthy)
                  (Demo.with_file Demo.Healthy Demo.repeated_state)
                  Demo.repeated_state
                  [("processed_ids", JArr (map JStr ["b"; "a"; "b"]))]
                  eq_refl
                  (RefJsonFacts.loads_dumps_payload [AStr "b"; AStr "a"; AStr "b"]))).
  reflexivity.
Defined.

(** A state file that holds an array instead of a dict. *)
Lemma load_state_wrong_shape_witness :
  RefJson.loads "[1, 2]" = Some (JArr [JInt 1; JInt 2])
  /\ load_state (Demo.with_file Demo.Healthy "[1, 2]")
     = (Ok ∅, Demo.with_file Demo.Healthy "[1, 2]").
Proof.
  assert (Hparse : RefJson.loads "[1, 2]" = Some (JArr [JInt 1; JInt 2]))
    by (vm_compute; reflexivity).
  split; [exact Hparse|].
  apply (@load_state_wrong_shape (Demo.platform Demo.Healthy)
           (Demo.with_file Demo.Healthy "[1, 2]") "[1, 2]"
           (JArr [JInt 1; JInt 2]) eq_refl Hparse).
  left. discriminate.
Defined.

(** The reply to [m1], with the sender override set. *)
Lemma reply_to_unseen_entry_witness :
  exists w3,
    process_entry Demo.hasty_config (JObj [("id", JStr "m1")])
      (∅, Demo.listed Demo.Healthy)
    = (Ok tt, ({[ AStr "m1" ]} ∪ ∅, w3))
    /\ state_file w3 = Missing
    /\ send_args Demo.hasty_config "a@b.com" "Hi"
       = [ "send"; "--to"; "a@b.com"; "--subject"; "[Auto-Reply] Re: Hi";
           "--body"; build_reply_body "a@b.com" "Hi";
           "--from"; "bot@example.com" ].
Proof.
  destruct (@reply_to_unseen_entry (Demo.platform Demo.Healthy) Demo.hasty_config
              (JObj [("id", JStr "m1")]) "m1" "a@b.com" "Hi" ∅
              (Demo.listed Demo.Healthy)
              (snd (run_mailgoat ["read"; "m1"] (Demo.listed Demo.Healthy)))
              (snd (run_mailgoat (send_args Demo.hasty_config "a@b.com" "Hi")
                      (snd (run_mailgoat ["read"; "m1"] (Demo.listed Demo.Healthy)))))
              [("from", JStr "a@b.com"); ("subject", JStr "Hi")] (JObj []))
    as (w3 & Hturn & Hfile & _ & Hargs).
  - reflexivity.
  - discriminate.
  - set_solver.
  - apply outcome_eta. vm_compute. reflexivity.
  - reflexivity.
  - reflexivity.
  - discriminate.
  - apply outcome_eta. vm_compute. reflexivity.
  - exists w3. split; [exact Hturn|]. split; [exact Hfile|exact Hargs].
Defined.

(** [m3] has no sender: it is marked processed after its read. *)
Lemma entry_without_sender_witness :
  process_entry default_config (JObj [("id", JStr "m3")])
    (∅, Demo.listed Demo.Healthy)
  = (Ok tt, ({[ AStr "m3" ]} ∪ ∅,
             snd (run_mailgoat ["read"; "m3"] (Demo.listed Demo.Healthy))))
  /\ trace (snd (run_mailgoat ["read"; "m3"] (Demo.listed Demo.Healthy)))
     = (trace (Demo.listed Demo.Healthy) ++ [Exec (read_cmd "m3")])%list.
Proof.
  destruct (@entry_without_sender (Demo.platform Demo.Healthy) default_config
              (JObj [("id", JStr "m3")]) "m3" ∅
              (Demo.listed Demo.Healthy)
              (snd (run_mailgoat ["read"; "m3"] (Demo.listed Demo.Healthy)))
              [("from", JStr EmptyString); ("subject", JStr "Hello")])
    as (Hturn & _ & Htrace).
  - reflexivity.
  - discriminate.
  - set_solver.
  - apply outcome_eta. vm_compute. reflexivity.
  - reflexivity.
  - split; [exact Hturn|exact Htrace].
Defined.

(** After the turn on [m3], an entry whose identifier is " m3 " is skipped. *)
Lemma same_id_handled_once_witness :
  let first := process_entry default_config (JObj [("id", JStr "m3")])
                 (∅, Demo.listed Demo.Healthy) in
  fst first = Ok tt
  /\ process_entry default_config (JObj [("id", JStr " m3 ")])
       (fst (snd first), snd (snd first))
     = (Ok tt, (fst (snd first), snd (snd first))).
Proof.
  cbv zeta.
  assert (Hfst : fst (process_entry default_config (JObj [("id", JStr "m3")])
                        (∅, Demo.listed Demo.Healthy)) = Ok tt)
    by (vm_compute; reflexivity).
  split; [exact Hfst|].
  pose proof (loop_outcome_eta _ _ Hfst) as Hstep.
  exact (@same_id_handled_once (Demo.platform Demo.Healthy) default_config
           (JObj [("id", JStr "m3")]) (JObj [("id", JStr " m3 ")])
           ∅ _ _ (Demo.listed Demo.Healthy) _ _ Hstep eq_refl (reflexivity _)).
Defined.

(** Three cycles that raise and leave no state file: the state path
    cannot be probed and the cycle runs no command; the listing cannot be
    run; the second reply fails. *)
Lemma raising_cycle_keeps_state_file_witness :
  process_messages default_config (Demo.blocked Demo.Healthy)
  = (Raise (OSError "File name too long"), Demo.blocked Demo.Healthy)
  /\ (exists w1,
        process_messages default_config DemoDown.fresh
        = (Raise (OSError "mailgoat: not found"), w1)
        /\ state_file w1 = Missing)
  /\ fst (Demo.pass Demo.SendFails) = Raise (RuntimeError "smtp down")
  /\ process_messages default_config (Demo.fresh Demo.SendFails)
     = (Raise (RuntimeError "smtp down"), snd (snd (Demo.pass Demo.SendFails)))
  /\ state_file (snd (snd (Demo.pass Demo.SendFails))) = Missing.
Proof.
  split; [|split].
  - apply (proj1 (@raising_cycle_keeps_state_file (Demo.platform Demo.Healthy)
                    default_config (Demo.blocked Demo.Healthy))).
    reflexivity.
  - destruct (proj1 (proj2 (@raising_cycle_keeps_state_file DemoDown.platform
                              default_config DemoDown.fresh))
                ∅ (OSError "mailgoat: not found")
                (snd (run_mailgoat inbox_list_args DemoDown.fresh)))
      as (Hcycle & Hfile & _).
    + reflexivity.
    + apply outcome_eta. vm_compute. reflexivity.
    + eexists. split; [exact Hcycle|exact Hfile].
  - assert (Hfst : fst (Demo.pass Demo.SendFails) = Raise (RuntimeError "smtp down"))
      by (vm_compute; reflexivity).
    split; [exact Hfst|].
    destruct (proj1 (proj2 (proj2 (@raising_cycle_keeps_state_file
                                      (Demo.platform Demo.SendFails)
                                      default_config (Demo.fresh Demo.SendFails))))
                ∅ Demo.inbox (Demo.listed Demo.SendFails)
                (RuntimeError "smtp down")
                (fst (snd (Demo.pass Demo.SendFails)))
                (snd (snd (Demo.pass Demo.SendFails))))
      as (Hcycle & Hfile & _).
    + reflexivity.
    + unfold Demo.listed. apply outcome_eta. vm_compute. reflexivity.
    + unfold Demo.pass in *. apply loop_outcome_eta. exact Hfst.
    + split; [exact Hcycle|exact Hfile].
Defined.

(** The healthy cycle ends with one write of the state file. *)
Lemma completed_cycle_writes_once_witness :
  exists evs text,
    trace (Demo.cycled Demo.Healthy) =
    (trace (Demo.fresh Demo.Healthy)
     ++ [Exec (["mailgoat"] ++ inbox_list_args ++ ["--json"])]
     ++ evs ++ [WriteState text])%list
    /\ forallb loop_event evs = true
    /\ state_file (Demo.cycled Demo.Healthy) = Holds text.
Proof.
  apply (@completed_cycle_writes_once (Demo.platform Demo.Healthy) default_config
           (Demo.fresh Demo.Healthy) (Demo.listed Demo.Healthy)
           (Demo.cycled Demo.Healthy) Demo.inbox).
  - unfold Demo.listed. apply outcome_eta. vm_compute. reflexivity.
  - unfold Demo.cycled. apply outcome_eta. vm_compute. reflexivity.
Defined.


(** A state file that lists the number 7: the cycle replies and then raises
    in [save_state], and the state file is as before. *)
Lemma foreign_id_blocks_saving_witness :
  fst (process_messages default_config (Demo.foreign Demo.Healthy)) = Raise TypeError
  /\ state_file (snd (process_messages default_config (Demo.foreign Demo.Healthy)))
     = Holds Demo.foreign_state.
Proof.
  assert (Hload : load_state (Demo.foreign Demo.Healthy)
                  = (Ok (py_set [AInt 7]), Demo.foreign Demo.Healthy)).
  { rewrite (load_state_present (Demo.foreign Demo.Healthy) Demo.foreign_state eq_refl).
    pose proof (@parse_state_payload (Demo.platform Demo.Healthy) [AInt 7]
                  (table_platform_roundtrip (Demo.respond Demo.Healthy))) as Hp.
    change (@parse_state (Demo.platform Demo.Healthy) Demo.foreign_state
            = Ok (py_set [AInt 7])) in Hp.
    rewrite Hp. reflexivity. }
  assert (Hlist : run_mailgoat inbox_list_args (Demo.foreign Demo.Healthy)
                  = (Ok (JArr Demo.inbox),
                     snd (run_mailgoat inbox_list_args (Demo.foreign Demo.Healthy))))
    by (apply outcome_eta; vm_compute; reflexivity).
  assert (Hloop : fst (process_entries default_config Demo.inbox
                         (py_set [AInt 7],
                          snd (run_mailgoat inbox_list_args (Demo.foreign Demo.Healthy))))
                  = Ok tt) by (vm_compute; reflexivity).
  apply loop_outcome_eta in Hloop.
  assert (Hin : AInt 7 ∈ py_set [AInt 7]) by (vm_compute; reflexivity).
  assert (Hlisted : listed_id Demo.inbox "m1").
  { split; [discriminate|]. exists (JObj [("id", JStr "m1")]).
    split; [apply list_elem_of_here|reflexivity]. }
  destruct (@foreign_id_blocks_saving (Demo.platform Demo.Healthy) default_config
              _ _ _ _ _ (AInt 7) Demo.inbox "m1"
              Hload Hin eq_refl Hlist Hloop Hlisted)
    as (Hcycle & [Hfile _] & _).
  exact (outcome_fields _ _ _ _ Hcycle Hfile).
Defined.

(** With an interval of -5 seconds the loop raises [ValueError] in its
    first turn, after the one cycle of that turn; with an interval of
    -9223372037 seconds it raises [OverflowError] there. *)
Lemma refused_interval_stops_loop_witness :
  (- sleep_max <= POLL_SECONDS Demo.hasty_config < 0
   /\ main_loop Demo.hasty_config 3 (Demo.fresh Demo.Healthy)
      = (Raise ValueError, before_sleep Demo.hasty_config (Demo.fresh Demo.Healthy)))
  /\ (POLL_SECONDS Demo.far_past_config < - sleep_max
      /\ main_loop Demo.far_past_config 3 (Demo.fresh Demo.Healthy)
         = (Raise OverflowError,
            before_sleep Demo.far_past_config (Demo.fresh Demo.Healthy)))
  /\ filter is_sleep (trace (before_sleep Demo.hasty_config (Demo.fresh Demo.Healthy)))
     = []
  /\ commands (trace (before_sleep Demo.hasty_config (Demo.fresh Demo.Healthy)))
     = 6%nat.
Proof.
  assert (Hneg : - sleep_max <= POLL_SECONDS Demo.hasty_config < 0)
    by (vm_compute; split; [discriminate|reflexivity]).
  assert (Hfar : POLL_SECONDS Demo.far_past_config < - sleep_max)
    by (vm_compute; reflexivity).
  split; [split; [exact Hneg|]|split; [split; [exact Hfar|]|]].
  - exact (proj1 (@refused_interval_stops_loop (Demo.platform Demo.Healthy)
                    Demo.hasty_config 2 (Demo.fresh Demo.Healthy)) Hneg).
  - exact (proj2 (@refused_interval_stops_loop (Demo.platform Demo.Healthy)
                    Demo.far_past_config 2 (Demo.fresh Demo.Healthy))
             (or_introl Hfar)).
  - split; vm_compute; reflexivity.
Defined.

(** The healthy cycle over three entries runs at most seven commands. *)
Lemma cycle_command_bound_witness :
  exists evs,
    trace (Demo.cycled Demo.Healthy) = (trace (Demo.fresh Demo.Healthy) ++ evs)%list
    /\ (commands evs <= 7)%nat.
Proof.
  apply (@cycle_command_bound (Demo.platform Demo.Healthy) default_config
           (Demo.fresh Demo.Healthy) (Demo.listed Demo.Healthy) Demo.inbox).
  unfold Demo.listed. apply outcome_eta. vm_compute. reflexivity.
Defined.

(** The listing holds the string "oops" after [m3]: the cycle handles [m3]
    and raises at the string. *)
Lemma entry_no_dict_aborts_witness :
  fst (process_messages default_config DemoOdd.fresh) = Raise AttributeError
  /\ state_file (snd (process_messages default_config DemoOdd.fresh)) = Missing.
Proof.
  assert (Hlist : run_mailgoat inbox_list_args DemoOdd.fresh
                  = (Ok (JArr ([JObj [("id", JStr "m3")]]
                               ++ JStr "oops" :: [JObj [("id", JNull)]])),
                     DemoOdd.listed))
    by (unfold DemoOdd.listed; apply outcome_eta; vm_compute; reflexivity).
  assert (Hpre : fst (process_entries default_config [JObj [("id", JStr "m3")]]
                        (∅, DemoOdd.listed)) = Ok tt) by (vm_compute; reflexivity).
  apply loop_outcome_eta in Hpre.
  destruct (@entry_no_dict_aborts DemoOdd.platform default_config
              DemoOdd.fresh DemoOdd.listed _ ∅ _ _ _ (JStr "oops")
              eq_refl Hlist Hpre ltac:(discriminate))
    as (Hcycle & [Hfile _]).
  exact (outcome_fields _ _ _ _ Hcycle Hfile).
Defined.

(** An entry without "id" and an entry with a blank "id" are skipped; for
    an entry with a [null] "id" the turn runs the command that reads the
    message "None", which the gateway refuses. *)
Lemma entry_identifier_edge_cases_witness :
  process_entry default_config (JObj [("date", JStr "today")]) (∅, DemoOdd.listed)
  = (Ok tt, (∅, DemoOdd.listed))
  /\ process_entry default_config (JObj [("id", JStr "  ")]) (∅, DemoOdd.listed)
     = (Ok tt, (∅, DemoOdd.listed))
  /\ (exists evs,
        trace (snd (snd (process_entry default_config (JObj [("id", JNull)])
                           (∅, DemoOdd.listed))))
        = (trace DemoOdd.listed
           ++ Exec ["mailgoat"; "read"; "None"; "--json"] :: evs)%list)
  /\ fst (process_entry default_config (JObj [("id", JNull)]) (∅, DemoOdd.listed))
     = Raise (RuntimeError "usage: mailgoat").
Proof.
  split; [|split; [|split]].
  - apply (proj1 (@entry_identifier_edge_cases DemoOdd.platform default_config
                    [("date", JStr "today")] ∅ DemoOdd.listed)).
    reflexivity.
  - apply (proj1 (proj2 (@entry_identifier_edge_cases DemoOdd.platform default_config
                           [("id", JStr "  ")] ∅ DemoOdd.listed)) "  ");
      reflexivity.
  - apply (proj2 (proj2 (@entry_identifier_edge_cases DemoOdd.platform default_config
                           [("id", JNull)] ∅ DemoOdd.listed))).
    + reflexivity.
    + apply not_elem_of_empty.
  - vm_compute. reflexivity.
Defined.

(** The command that cannot be run: the platform whose [subprocess.run]
    raises. *)
Lemma gateway_call_runs_one_command_witness :
  fst (@run_mailgoat (table_platform (fun _ => Raise (OSError "mailgoat: not found")))
         ["read"; "m1"]
         (@Build_World (table_platform (fun _ => Raise (OSError "mailgoat: not found")))
            Missing tt []))
  = Raise (OSError "mailgoat: not found").
Proof.
  apply (proj2 (proj2 (@gateway_call_runs_one_command
                         (table_platform (fun _ => Raise (OSError "mailgoat: not found")))
                         ["read"; "m1"] _)) (OSError "mailgoat: not found") tt).
  reflexivity.
Defined.
